(** * Sub-agent wrapper: supervision, drain and reconciliation

    A shallow embedding of [subagent_template.py].  The program spawns a
    command-line agent, drains its standard output on a reader thread,
    enforces a wall-clock timeout with signal escalation, and reconciles
    everything into one result dictionary.

    Conventions of the embedding:
    - Python text is a [string] whose characters stand for the code points
      below 256; [strip] removes the white space of [str.isspace] among
      them, the no-break space and the next-line control included.
    - Python objects produced by [json.loads] are values of [pyobj]; a
      dictionary is an association list in insertion order.
    - [json.loads] itself belongs to the Python standard library, not to the
      program: every function that decodes takes the decoder as a parameter
      [loads].  A decoder returns a value, raises [json.JSONDecodeError], or
      raises another exception; the program treats the three differently.
      [ref_loads] is a reference decoder for a fragment of JSON used to run
      the model on concrete inputs.
    - Whatever the operating system, the console or the child process
      decides (what the child prints, whether its output decodes, when it
      exits, whether a system call or a [print] fails) is a field of the
      record [World]; the program is a function of its arguments and of the
      world.
    - The reader thread is modelled by its effect at the moment the
      supervisor stops waiting for it: the lines it handled, the decoding
      error of the pipe that ended it, if any, and possibly one more line
      already in the logs but not yet interpreted.
    - Reading and writing the log files, once they are open, is taken to
      succeed, and so are the writes of the reader thread to the console.
      The spinner is left out.
    - The kinds and the texts of the exceptions are those of CPython 3.11. *)

From Stdlib Require Import Ascii String QArith DecimalString.
From stdpp Require Import gmap strings list.

Local Open Scope string_scope.
Local Open Scope Z_scope.

(** ** Text *)

Module Text.

(** [str.isspace] on the code points below 256: TAB, LF, VT, FF, CR, the
    four separators 0x1c-0x1f, the space, the next-line control U+0085 and
    the no-break space U+00A0. *)
Definition is_space (c : ascii) : bool :=
  let n := nat_of_ascii c in
  ((9 <=? n)%nat && (n <=? 13)%nat) || ((28 <=? n)%nat && (n <=? 32)%nat)
  || (n =? 133)%nat || (n =? 160)%nat.

Fixpoint lstrip (s : string) : string :=
  match s with
  | EmptyString => EmptyString
  | String c r => if is_space c then lstrip r else s
  end.

Fixpoint rstrip (s : string) : string :=
  match s with
  | EmptyString => EmptyString
  | String c r =>
      match rstrip r with
      | EmptyString => if is_space c then EmptyString else String c EmptyString
      | r' => String c r'
      end
  end.

(** [s.strip()] *)
Definition strip (s : string) : string := lstrip (rstrip s).

(** Truth value of a string: [bool(s)]. *)
Definition nonempty (s : string) : bool :=
  match s with EmptyString => false | _ => true end.

(** [a or b] on strings. *)
Definition str_or (a b : string) : string := if nonempty a then a else b.

(** [s[:n]] *)
Fixpoint take_str (n : nat) (s : string) : string :=
  match n, s with
  | S n', String c r => String c (take_str n' r)
  | _, _ => EmptyString
  end.

(** [str(n)] for an [int]. *)
Definition str_of_int (n : Z) : string := NilZero.string_of_int (Z.to_int n).

(** [s[:n] + ("..." if len(s) > n else "")] on a string. *)
Definition truncate (s : string) (n : nat) : string :=
  take_str n s +:+ (if (n <? String.length s)%nat then "..." else EmptyString).

(** [''.join(l)] *)
Definition concat_str (l : list string) : string :=
  foldr String.append EmptyString l.

(** The lines of a text file as iteration over the open file yields them:
    each line keeps its terminating LF; a last line without LF is kept. *)
Fixpoint file_lines_aux (cur : string -> string) (s : string) : list string :=
  match s with
  | EmptyString =>
      match cur EmptyString with
      | EmptyString => []
      | l => [l]
      end
  | String c r =>
      if Ascii.eqb c "010"%char
      then cur (String c EmptyString) :: file_lines_aux (fun t => t) r
      else file_lines_aux (fun t => cur (String c t)) r
  end.

(** Concrete JSON texts are written with apostrophes in place of double
    quotes; [dq] puts the double quotes back. *)
Fixpoint dq (s : string) : string :=
  match s with
  | EmptyString => EmptyString
  | String c r => String (if Ascii.eqb c "'"%char then "034"%char else c) (dq r)
  end.

Definition file_lines (s : string) : list string := file_lines_aux (fun t => t) s.

End Text.

Import Text.

(** ** Python values and exceptions *)

(** What [json.loads] returns: [None], [bool], [int], [float] (its finite
    values, as rationals), [str], [list] and [dict] (keys in insertion
    order). *)
#[warnings="-register-all"]
Inductive pyobj : Type :=
| PNone
| PBool (b : bool)
| PInt (z : Z)
| PFloat (q : Q)
| PStr (s : string)
| PList (l : list pyobj)
| PDict (d : list (string * pyobj)).

Abbreviation pydict := (list (string * pyobj)).

Inductive exc_kind : Type :=
| ValueError | FileNotFoundError | AttributeError | TypeError
| UnicodeDecodeError | UnicodeEncodeError | RecursionError | OtherError.

(** An exception with the text [str(e)] gives for it.  All kinds are
    subclasses of [Exception]; [OtherError] stands for the remaining ones
    (ProcessLookupError, PermissionError, FileExistsError, ...). *)
Record pyexc : Type := Exc { exc_kind_of : exc_kind; str_exc : string }.

(** A computation that returns or raises. *)
Inductive res (A : Type) : Type :=
| Ok (a : A)
| Raise (e : pyexc).
Arguments Ok {A} a.
Arguments Raise {A} e.

(** What a call of [json.loads] does: it returns the decoded value, it
    raises [json.JSONDecodeError], or it raises another exception (a
    [RecursionError] on deep nesting, a plain [ValueError] on an integer
    literal beyond the digit limit). *)
Inductive loaded : Type :=
| Loaded (v : pyobj)
| JSONDecodeError
| LoadsRaised (e : pyexc).

Module Py.

(** [d.get(k)]: the first binding of [k]. *)
Fixpoint dict_get (d : pydict) (k : string) : option pyobj :=
  match d with
  | [] => None
  | (k', v) :: r => if String.eqb k' k then Some v else dict_get r k
  end.

(** [d[k] = v]: overwrite in place, or append. *)
Fixpoint dict_set (d : pydict) (k : string) (v : pyobj) : pydict :=
  match d with
  | [] => [(k, v)]
  | (k', v') :: r =>
      if String.eqb k' k then (k', v) :: r else (k', v') :: dict_set r k v
  end.

(** [type(o).__name__] *)
Definition type_name (o : pyobj) : string :=
  match o with
  | PNone => "NoneType"
  | PBool _ => "bool"
  | PInt _ => "int"
  | PFloat _ => "float"
  | PStr _ => "str"
  | PList _ => "list"
  | PDict _ => "dict"
  end.

(** [bool(o)] *)
Definition truthy (o : pyobj) : bool :=
  match o with
  | PNone => false
  | PBool b => b
  | PInt z => negb (z =? 0)
  | PFloat q => negb (Qeq_bool q 0)
  | PStr s => nonempty s
  | PList l => match l with [] => false | _ => true end
  | PDict d => match d with [] => false | _ => true end
  end.

(** [a or b] *)
Definition or_else (a b : pyobj) : pyobj := if truthy a then a else b.

(** The number a [bool], [int] or [float] stands for in a comparison. *)
Definition num_val (o : pyobj) : option Q :=
  match o with
  | PBool b => Some (inject_Z (if b then 1 else 0))
  | PInt z => Some (inject_Z z)
  | PFloat q => Some q
  | _ => None
  end.

(** [a == b] *)
Fixpoint eq (a b : pyobj) {struct a} : bool :=
  match a with
  | PNone => match b with PNone => true | _ => false end
  | PBool _ | PInt _ | PFloat _ =>
      match num_val a, num_val b with
      | Some x, Some y => Qeq_bool x y
      | _, _ => false
      end
  | PStr s => match b with PStr t => String.eqb s t | _ => false end
  | PList xs =>
      match b with
      | PList ys =>
          (fix go (xs ys : list pyobj) : bool :=
             match xs, ys with
             | [], [] => true
             | x :: xs', y :: ys' => eq x y && go xs' ys'
             | _, _ => false
             end) xs ys
      | _ => false
      end
  | PDict d =>
      match b with
      | PDict e =>
          (length d =? length e)%nat &&
          (fix go (d : pydict) : bool :=
             match d with
             | [] => true
             | p :: r =>
                 match dict_get e (fst p) with
                 | Some w => eq (snd p) w
                 | None => false
                 end && go r
             end) d
      | _ => false
      end
  end.

(** [o == "s"] for a string constant. *)
Definition eq_str (o : pyobj) (s : string) : bool := eq o (PStr s).

Definition no_attribute (o : pyobj) (attr : string) : pyexc :=
  Exc AttributeError ("'" +:+ type_name o +:+ "' object has no attribute '" +:+ attr +:+ "'").

Definition not_iterable (o : pyobj) : pyexc :=
  Exc TypeError ("'" +:+ type_name o +:+ "' object is not iterable").

(** [o.get(k, default)]: only a [dict] has the method. *)
Definition get (o : pyobj) (k : string) (default : pyobj) : res pyobj :=
  match o with
  | PDict d => Ok (match dict_get d k with Some v => v | None => default end)
  | _ => Raise (no_attribute o "get")
  end.

(** The items [for x in o] visits: the elements of a list, the characters
    of a string, the keys of a dictionary. *)
Definition iter (o : pyobj) : res (list pyobj) :=
  match o with
  | PList l => Ok l
  | PStr s => Ok ((fun c => PStr (String c EmptyString)) <$> list_ascii_of_string s)
  | PDict d => Ok ((fun p => PStr (fst p)) <$> d)
  | _ => Raise (not_iterable o)
  end.

End Py.

(** ** A reference decoder

    [ref_loads] decodes the fragment of JSON made of [null], [true],
    [false], integers, strings with the two-character escapes, arrays and
    objects, with the white space and the end-of-input check of
    [json.loads], and with the limit of 4300 digits that the conversion of
    an integer literal enforces.  Inside that fragment it does what
    [json.loads] does; outside it (fractions, exponents, [\u] escapes,
    nesting deep enough for a [RecursionError]) it answers
    [JSONDecodeError].  The theorems below hold for every decoder; this one
    only serves to run the model on concrete texts. *)

Module RefJson.

(** The result of scanning a piece of text. *)
Inductive scan (A : Type) : Type :=
| Got (a : A)
| Bad                        (* not JSON, or outside the fragment *)
| TooLong (digits : nat).    (* an integer literal of that many digits *)
Arguments Got {A} a.
Arguments Bad {A}.
Arguments TooLong {A} digits.

Definition of_option {A : Type} (o : option A) : scan A :=
  match o with
  | Some a => Got a
  | None => Bad
  end.

(** [sys.get_int_max_str_digits()] *)
Definition int_max_str_digits : nat := 4300.

Definition is_ws (c : ascii) : bool :=
  let n := nat_of_ascii c in
  (n =? 32)%nat || (n =? 9)%nat || (n =? 10)%nat || (n =? 13)%nat.

Fixpoint skip_ws (s : string) : string :=
  match s with
  | String c r => if is_ws c then skip_ws r else s
  | EmptyString => s
  end.

Definition digit_val (c : ascii) : option Z :=
  let n := nat_of_ascii c in
  if (48 <=? n)%nat && (n <=? 57)%nat then Some (Z.of_nat (n - 48)) else None.

Fixpoint digits (acc : Z) (s : string) : Z * string :=
  match s with
  | String c r =>
      match digit_val c with
      | Some d => digits (10 * acc + d) r
      | None => (acc, s)
      end
  | EmptyString => (acc, s)
  end.

(** An integer literal: [0], or a non-zero digit followed by digits; a
    fraction or an exponent after it is outside the fragment, and more
    digits than the limit make [int] raise. *)
Definition unsigned_int (s : string) : scan (Z * string) :=
  match s with
  | String c r =>
      match digit_val c with
      | Some d =>
          let '(n, rest) := if (d =? 0) then (0, r) else digits d r in
          match rest with
          | String "."%char _ | String "e"%char _ | String "E"%char _ => Bad
          | _ =>
              let k := (String.length s - String.length rest)%nat in
              if (int_max_str_digits <? k)%nat then TooLong k else Got (n, rest)
          end
      | None => Bad
      end
  | EmptyString => Bad
  end.

Definition unescape (c : ascii) : option ascii :=
  let n := nat_of_ascii c in
  if (n =? 34)%nat || (n =? 92)%nat || (n =? 47)%nat then Some c
  else if (n =? 98)%nat then Some "008"%char
  else if (n =? 102)%nat then Some "012"%char
  else if (n =? 110)%nat then Some "010"%char
  else if (n =? 114)%nat then Some "013"%char
  else if (n =? 116)%nat then Some "009"%char
  else None.

(** The body of a string literal, after the opening quote. *)
Fixpoint string_body (s : string) : option (string * string) :=
  match s with
  | EmptyString => None
  | String c r =>
      let n := nat_of_ascii c in
      if (n =? 34)%nat then Some (EmptyString, r)
      else if (n =? 92)%nat then
        match r with
        | String e r' =>
            match unescape e, string_body r' with
            | Some c', Some (t, rest) => Some (String c' t, rest)
            | _, _ => None
            end
        | EmptyString => None
        end
      else if (n <? 32)%nat then None
      else
        match string_body r with
        | Some (t, rest) => Some (String c t, rest)
        | None => None
        end
  end.

Definition keyword (k : string) (v : pyobj) (s : string) : option (pyobj * string) :=
  if String.prefix k s
  then Some (v, String.substring (String.length k) (String.length s - String.length k) s)
  else None.

Fixpoint value (fuel : nat) (s : string) : scan (pyobj * string) :=
  match fuel with
  | O => Bad
  | S f =>
      match s with
      | String "n"%char _ => of_option (keyword "null" PNone s)
      | String "t"%char _ => of_option (keyword "true" (PBool true) s)
      | String "f"%char _ => of_option (keyword "false" (PBool false) s)
      | String "034"%char r =>
          match string_body r with
          | Some (t, rest) => Got (PStr t, rest)
          | None => Bad
          end
      | String "-"%char r =>
          match unsigned_int r with
          | Got (n, rest) => Got (PInt (- n), rest)
          | Bad => Bad
          | TooLong k => TooLong k
          end
      | String "["%char r =>
          match skip_ws r with
          | String "]"%char rest => Got (PList [], rest)
          | r' => elements f [] r'
          end
      | String "{"%char r =>
          match skip_ws r with
          | String "}"%char rest => Got (PDict [], rest)
          | r' => members f [] r'
          end
      | _ =>
          match unsigned_int s with
          | Got (n, rest) => Got (PInt n, rest)
          | Bad => Bad
          | TooLong k => TooLong k
          end
      end
  end
with elements (fuel : nat) (acc : list pyobj) (s : string) : scan (pyobj * string) :=
  match fuel with
  | O => Bad
  | S f =>
      match value f s with
      | Got (v, r) =>
          match skip_ws r with
          | String ","%char r' => elements f (acc ++ [v])%list (skip_ws r')
          | String "]"%char rest => Got (PList (acc ++ [v])%list, rest)
          | _ => Bad
          end
      | Bad => Bad
      | TooLong k => TooLong k
      end
  end
with members (fuel : nat) (acc : pydict) (s : string) : scan (pyobj * string) :=
  match fuel with
  | O => Bad
  | S f =>
      match s with
      | String "034"%char r =>
          match string_body r with
          | Some (k, r1) =>
              match skip_ws r1 with
              | String ":"%char r2 =>
                  match value f (skip_ws r2) with
                  | Got (v, r3) =>
                      match skip_ws r3 with
                      | String ","%char r4 => members f (Py.dict_set acc k v) (skip_ws r4)
                      | String "}"%char rest => Got (PDict (Py.dict_set acc k v), rest)
                      | _ => Bad
                      end
                  | Bad => Bad
                  | TooLong n => TooLong n
                  end
              | _ => Bad
              end
          | None => Bad
          end
      | _ => Bad
      end
  end.

(** The [ValueError] of [int] on a literal of [k] digits. *)
Definition digits_error (k : nat) : pyexc :=
  Exc ValueError
    ("Exceeds the limit (4300 digits) for integer string conversion: value has "
     +:+ str_of_int (Z.of_nat k)
     +:+ " digits; use sys.set_int_max_str_digits() to increase the limit").

(** [json.loads(s)] on the fragment. *)
Definition ref_loads (s : string) : loaded :=
  match value (2 * String.length s + 2) (skip_ws s) with
  | Got (v, rest) =>
      match skip_ws rest with
      | EmptyString => Loaded v
      | _ => JSONDecodeError
      end
  | Bad => JSONDecodeError
  | TooLong k => LoadsRaised (digits_error k)
  end.

End RefJson.

Abbreviation ref_loads := RefJson.ref_loads.


(** ** Credential and environment resolver *)

Definition DEFAULT_BASE_URL : string := "https://api.z.ai/api/anthropic".
Definition DEFAULT_API_TIMEOUT_MS : string := "300000".

Definition missing_token_message : string :=
  "Missing API token!
Set one of these environment variables:
  export ZAI_API_KEY='your-key-here'
  export ANTHROPIC_AUTH_TOKEN='your-key-here'

Get your API key from: https://z.ai/subscribe".

(** [env.get(a) or env.get(b)] *)
Definition get_or (env : gmap string string) (a b : string) : option string :=
  match env !! a with
  | Some v => if nonempty v then Some v else env !! b
  | None => env !! b
  end.

(** [not v] for the result of [env.get]. *)
Definition falsy (v : option string) : bool :=
  match v with
  | Some t => negb (nonempty t)
  | None => true
  end.

(** [_build_env()], as a function of [os.environ]. *)
Definition _build_env (environ : gmap string string) : res (gmap string string) :=
  let env := environ in
  let token := get_or env "ANTHROPIC_AUTH_TOKEN" "ZAI_API_KEY" in
  if falsy token then Raise (Exc ValueError missing_token_message)
  else
    let env := <["ANTHROPIC_AUTH_TOKEN" := default EmptyString token]> env in
    let base :=
      let u := get_or env "ANTHROPIC_BASE_URL" "ZAI_BASE_URL" in
      if falsy u then DEFAULT_BASE_URL else default EmptyString u in
    let env := <["ANTHROPIC_BASE_URL" := base]> env in
    let env :=
      match env !! "API_TIMEOUT_MS" with
      | Some _ => env
      | None => <["API_TIMEOUT_MS" := DEFAULT_API_TIMEOUT_MS]> env
      end in
    Ok env.

(** ** Termination of the process group *)

Inductive signal : Type := SIGTERM | SIGKILL.

(** What the operating system saw happen, in order. *)
Inductive os_event : Type :=
| GroupSignalled (s : signal)            (* os.killpg(os.getpgid(pid), s) returned *)
| Waited (seconds : Z) (exited : bool)   (* proc.wait(timeout=seconds) returned, or expired *)
| ChildSignalled (s : signal).           (* proc.kill() returned *)

(** How [proc.wait(timeout=...)] answers: the child exited in time, the
    wait raised [subprocess.TimeoutExpired], or it raised something else. *)
Inductive wait_answer : Type :=
| Exited
| Expired
| WaitFailed (e : pyexc).

(** How each system call of [_kill_process_group] answers.  For the
    signalling calls [None] is a return and [Some e] an exception, which
    is never [TimeoutExpired] (only [proc.wait] raises that). *)
Record KillOracle : Type := {
  term_group : option pyexc;   (* os.killpg(os.getpgid(proc.pid), SIGTERM) *)
  wait_grace : wait_answer;    (* proc.wait(timeout=grace_seconds) *)
  kill_group : option pyexc;   (* os.killpg(os.getpgid(proc.pid), SIGKILL) *)
  wait_reap : wait_answer;     (* proc.wait(timeout=2) *)
  child_kill : option pyexc    (* proc.kill() *)
}.

(** [isinstance(e, FileNotFoundError)] *)
Definition is_file_not_found (e : pyexc) : bool :=
  match exc_kind_of e with
  | FileNotFoundError => true
  | _ => false
  end.

(** How the [try] block of [_kill_process_group] is left. *)
Inductive try_end : Type :=
| Completed
| TimedOut                     (* subprocess.TimeoutExpired *)
| Failed (e : pyexc).          (* any other exception *)

(** The body of the [try]: the events it caused and how it ended. *)
Definition kill_try (o : KillOracle) (grace_seconds : Z) : list os_event * try_end :=
  match term_group o with
  | Some e => ([], Failed e)
  | None =>
      match wait_grace o with
      | Exited => ([GroupSignalled SIGTERM; Waited grace_seconds true], Completed)
      | Expired => ([GroupSignalled SIGTERM; Waited grace_seconds false], TimedOut)
      | WaitFailed e => ([GroupSignalled SIGTERM], Failed e)
      end
  end.

(** [_kill_process_group(proc, grace_seconds)]: the events it caused, and
    the exception it lets through, if any. *)
Definition _kill_process_group (o : KillOracle) (grace_seconds : Z)
  : list os_event * option pyexc :=
  match kill_try o grace_seconds with
  | (evs, Completed) => (evs, None)
  | (evs, TimedOut) =>
      (* except subprocess.TimeoutExpired *)
      match kill_group o with
      | Some e => (evs, Some e)
      | None =>
          let reaped :=
            match wait_reap o with
            | Exited => [Waited 2 true]
            | Expired => [Waited 2 false]
            | WaitFailed _ => []
            end in
          ((evs ++ GroupSignalled SIGKILL :: reaped)%list, None)
      end
  | (evs, Failed _) =>
      (* except Exception *)
      match child_kill o with
      | None => ((evs ++ [ChildSignalled SIGKILL])%list, None)
      | Some _ => (evs, None)
      end
  end.

Definition default_grace_seconds : Z := 5.

(** ** The run: data *)

Record Artifacts : Type := {
  run_id : string;
  stream_log : option string;
  stdout_log : string;
  stderr_log : string
}.

(** The dictionary [run_subagent] returns. *)
Record Outcome : Type := {
  success : bool;
  result : pyobj;
  session_id : pyobj;
  error : option string;
  artifacts : Artifacts
}.

Definition set_success (b : bool) (r : Outcome) : Outcome :=
  {| success := b; result := result r; session_id := session_id r;
     error := error r; artifacts := artifacts r |}.
Definition set_result (v : pyobj) (r : Outcome) : Outcome :=
  {| success := success r; result := v; session_id := session_id r;
     error := error r; artifacts := artifacts r |}.
Definition set_session_id (v : pyobj) (r : Outcome) : Outcome :=
  {| success := success r; result := result r; session_id := v;
     error := error r; artifacts := artifacts r |}.
Definition set_error (msg : string) (r : Outcome) : Outcome :=
  {| success := success r; result := result r; session_id := session_id r;
     error := Some msg; artifacts := artifacts r |}.

(** What is printed on standard output, one constructor per [print] or
    [sys.stdout.write] of the program (the spinner frames apart). *)
Inductive console_ev : Type :=
| Starting (rid cwd : string)
| TaskPreview (text : string)
| ToolNote (rid : string) (tool_name : pyobj)
| CompleteNote (rid : string)
| SuccessLine (rid : string)
| ResultPreview (text : string)
| ErrorLine (rid : string) (err : option string)
| LogsLine (path : string)
| JsonLine (obj : pyobj).

(** The arguments of [run_subagent]. *)
Record Args : Type := {
  task : string;
  working_dir : option string;
  allowed_tools : option string;
  timeout : Z;
  skip_permissions : bool;
  stream_progress : bool;
  max_budget_usd : option Q;
  debug : bool
}.

(** Everything outside the program that a run depends on. *)
Record World : Type := {
  environ : gmap string string;   (* os.environ *)
  getcwd : res string;            (* os.getcwd() *)
  uuid4_hex : string;             (* uuid.uuid4().hex *)
  makedirs : option pyexc;        (* os.makedirs(artifacts_dir, exist_ok=True):
                                     None when it returned *)
  debug_log_start : option pyexc; (* opening the debug log and writing its
                                     heading: None when that went through *)
  debug_log_end : option pyexc;   (* writing its last line and closing it *)
  print_fault : console_ev -> option pyexc;
                                  (* print(line), in run_subagent and in main:
                                     the exception it raises, such as the
                                     UnicodeEncodeError of a console that
                                     cannot encode the line; None when the
                                     line is printed *)
  popen : option pyexc;           (* subprocess.Popen(...): None when the child started *)
  open_logs : option pyexc;       (* opening the log files: None when all opened *)
  polls : list Q;                 (* time.time() - start at each turn of the wait
                                     loop that found the child alive *)
  returncode : Z;                 (* exit status once proc.poll() reports one *)
  kill_oracle : KillOracle;       (* the system calls of the termination *)
  stdout_lines : list string;     (* lines the reader thread took from the pipe
                                     and handled before the supervisor went on *)
  stdout_fault : option pyexc;    (* the UnicodeDecodeError with which the
                                     iteration over the pipe ended the reader
                                     after these lines, if it did *)
  pending_line : option string;   (* a line the reader had flushed to the logs
                                     but not yet interpreted at that moment *)
  stderr_read : res string        (* proc.stderr.read(): the text, or the
                                     UnicodeDecodeError of the strict decoder *)
}.

(** ** Output drain: [read_stdout] *)

(** The variables the reader thread writes. *)
Record Drain : Type := {
  stdout_f : list string;            (* lines written to the stdout log *)
  stream_f : list string;            (* lines written to the stream log *)
  final_result_event : pyobj;        (* None until a result event is seen *)
  last_tool_name_printed : pyobj;    (* None until a tool is displayed *)
  console : list console_ev
}.

Definition drain_start : Drain :=
  {| stdout_f := []; stream_f := []; final_result_event := PNone;
     last_tool_name_printed := PNone; console := [] |}.

Definition bind {A B : Type} (m : res A) (k : A -> res B) : res B :=
  match m with
  | Ok a => k a
  | Raise e => Raise e
  end.

Notation "x <- m ;; k" := (bind m (fun x => k))
  (at level 100, m at next level, right associativity).

Section Supervision.

(** [json.loads] *)
Variable loads : string -> loaded.

(** Both log writes of one line. *)
Definition log_line (streaming : bool) (st : Drain) (line : string) : Drain :=
  {| stdout_f := (stdout_f st ++ [line])%list;
     stream_f := if streaming then (stream_f st ++ [line])%list else stream_f st;
     final_result_event := final_result_event st;
     last_tool_name_printed := last_tool_name_printed st;
     console := console st |}.

(** [block.get(type) == tool_use], for a block that is a dictionary. *)
Definition is_tool_use (d : pydict) : bool :=
  Py.eq_str (default PNone (Py.dict_get d "type")) "tool_use".

(** [block.get(name) or tool]: the name, or the placeholder. *)
Definition block_tool_name (d : pydict) : pyobj :=
  Py.or_else (default PNone (Py.dict_get d "name")) (PStr "tool").

(** Display of a tool name and update of the marker. *)
Definition display_tool (rid : string) (st : Drain) (tool_name : pyobj) : Drain :=
  {| stdout_f := stdout_f st; stream_f := stream_f st;
     final_result_event := final_result_event st;
     last_tool_name_printed := tool_name;
     console := (console st ++ [ToolNote rid tool_name])%list |}.

(** The body of [for block in ...]. *)
Definition tool_use_block (rid : string) (st : Drain) (block : pyobj) : Drain :=
  match block with
  | PDict d =>
      if is_tool_use d then
        let tool_name := block_tool_name d in
        if negb (Py.eq tool_name (last_tool_name_printed st))
        then display_tool rid st tool_name
        else st
      else st
  | _ => st
  end.

(** The interpretation of one logged line in streaming mode. *)
Definition interpret_line (rid : string) (st : Drain) (line : string) : res Drain :=
  let line_stripped := strip line in
  if negb (nonempty line_stripped) then Ok st
  else
    match loads line_stripped with
    | JSONDecodeError => Ok st
    | LoadsRaised e => Raise e
    | Loaded event =>
        etype <- Py.get event "type" (PStr EmptyString) ;;
        if Py.eq_str etype "assistant" then
          message <- Py.get event "message" (PDict []) ;;
          content <- Py.get message "content" (PList []) ;;
          blocks <- Py.iter content ;;
          Ok (fold_left (tool_use_block rid) blocks st)
        else if Py.eq_str etype "result" then
          Ok {| stdout_f := stdout_f st; stream_f := stream_f st;
                final_result_event := event;
                last_tool_name_printed := last_tool_name_printed st;
                console := (console st ++ [CompleteNote rid])%list |}
        else Ok st
    end.

(** [read_stdout()]: the state when the loop ends, and the exception that
    ended the thread, if one did. *)
Fixpoint read_stdout (streaming : bool) (rid : string) (lines : list string) (st : Drain)
  : Drain * option pyexc :=
  match lines with
  | [] => (st, None)
  | line :: rest =>
      let st := log_line streaming st line in
      if streaming then
        match interpret_line rid st line with
        | Ok st' => read_stdout streaming rid rest st'
        | Raise e => (st, Some e)
        end
      else read_stdout streaming rid rest st
  end.

(** The reader as the supervisor finds it: the handled lines, then either
    the decoding error with which [for line in proc.stdout] ended the
    thread, or the pending line, logged only. *)
Definition reader (streaming : bool) (rid : string) (w : World) : Drain * option pyexc :=
  match read_stdout streaming rid (stdout_lines w) drain_start with
  | (st, None) =>
      match stdout_fault w with
      | Some e => (st, Some e)
      | None =>
          match pending_line w with
          | Some line => (log_line streaming st line, None)
          | None => (st, None)
          end
      end
  | aborted => aborted
  end.

(** ** Timeout supervisor *)

(** [(time.time() - start) > timeout] *)
Definition timeout_exceeded (elapsed : Q) (timeout : Z) : bool :=
  negb (Qle_bool elapsed (inject_Z timeout)).

(** The wait loop: [true] when a turn found the deadline passed. *)
Fixpoint timed_out (timeout : Z) (polls : list Q) : bool :=
  match polls with
  | [] => false
  | elapsed :: rest =>
      if timeout_exceeded elapsed timeout then true else timed_out timeout rest
  end.

Definition timeout_message (timeout : Z) : string :=
  "Timeout after " +:+ str_of_int timeout +:+ "s".

(** ** Result reconciliation *)

(** How a block of statements ends. *)
Inductive flow : Type :=
| Fallthrough
| Returned
| Raised (e : pyexc).

(** The body of the re-scan loop; its bare [except] takes every
    exception. *)
Definition rescan_line (last_result : pyobj) (ln : string) : pyobj :=
  match loads (strip ln) with
  | Loaded ev =>
      match Py.get ev "type" PNone with
      | Ok t => if Py.eq_str t "result" then ev else last_result
      | Raise _ => last_result
      end
  | JSONDecodeError | LoadsRaised _ => last_result
  end.

Definition rescan (log_text : string) : pyobj :=
  fold_left rescan_line (file_lines log_text) PNone.

(** The three assignments made from a decoded object: [success], then
    [result], then [session_id]; the second and third call [.get]. *)
Definition take_result (ev : pyobj) (r : Outcome) : Outcome * flow :=
  let r := set_success true r in
  match Py.get ev "result" (PStr EmptyString) with
  | Raise e => (r, Raised e)
  | Ok v =>
      let r := set_result (Py.or_else v (PStr EmptyString)) r in
      match Py.get ev "session_id" PNone with
      | Raise e => (r, Raised e)
      | Ok sid => (set_session_id sid r, Fallthrough)
      end
  end.

Definition str_of_path (p : option string) : string :=
  match p with
  | Some s => s
  | None => "None"
  end.

Definition no_result_placeholder (stream_log : option string) : string :=
  "(no result event; see " +:+ str_of_path stream_log +:+ ")".

Definition exit_code_message (code : Z) : string := "Exit code: " +:+ str_of_int code.

(** From [if result["error"]] to the end of the [try] body. *)
Definition reconcile (r : Outcome) (code : Z) (streaming : bool)
    (final_event : pyobj) (stream_text stdout_text err_text : string)
  : Outcome * flow :=
  if match error r with Some msg => nonempty msg | None => false end
  then (r, Returned)
  else if code =? 0 then
    if streaming then
      if Py.truthy final_event then take_result final_event r
      else
        let last_result :=
          match stream_log (artifacts r) with
          | Some _ => rescan stream_text
          | None => PNone
          end in
        if Py.truthy last_result then take_result last_result r
        else
          (set_result (PStr (no_result_placeholder (stream_log (artifacts r))))
             (set_success true r), Fallthrough)
    else
      match loads stdout_text with
      | Loaded output => take_result output r
      | JSONDecodeError => (set_result (PStr stdout_text) (set_success true r), Fallthrough)
      | LoadsRaised e => (r, Raised e)
      end
  else
    (set_error (strip (str_or (strip err_text) (exit_code_message code))) r, Fallthrough).

(** ** [run_subagent] *)

Definition artifacts_dir : string := "/tmp/glm-native-subagent".
Definition cli_not_found : string :=
  "Claude CLI not found. Install: npm install -g @anthropic-ai/claude-code".

(** [_safe_truncate(s, n)].  The function is written for text; on a true
    value of another type the slice or the concatenation raises (for a
    dictionary the exception is a KeyError from Python 3.12 on). *)
Definition _safe_truncate (s : pyobj) (n : nat) : res string :=
  match s with
  | PStr t => Ok (if negb (nonempty t) then EmptyString else truncate t n)
  | PList _ =>
      if negb (Py.truthy s) then Ok EmptyString
      else Raise (Exc TypeError (dq "can only concatenate list (not 'str') to list"))
  | PDict _ =>
      if negb (Py.truthy s) then Ok EmptyString
      else Raise (Exc TypeError "unhashable type: 'slice'")
  | _ =>
      if negb (Py.truthy s) then Ok EmptyString
      else Raise (Exc TypeError ("'" +:+ Py.type_name s +:+ "' object is not subscriptable"))
  end.

(** What a call of [run_subagent] leaves behind: the lines printed, the
    signalling done, and the dictionary returned or the exception raised. *)
Record Report : Type := {
  printed : list console_ev;
  signals : list os_event;
  returned : res Outcome
}.

(** The [except] clauses of [run_subagent]. *)
Definition handle_exception (r : Outcome) (f : flow) : Outcome :=
  match f with
  | Raised e =>
      if is_file_not_found e then set_error cli_not_found r
      else set_error (str_exc e) r
  | _ => r
  end.

(** The state when the [try] statement is left. *)
Record Attempt : Type := {
  att_result : Outcome;             (* the dictionary *)
  att_flow : flow;                  (* how the body ended *)
  att_notes : list console_ev;      (* what the reader printed *)
  att_signals : list os_event       (* the signalling done *)
}.

(** The wait loop: the dictionary after it, the signalling done, and the
    exception the termination helper let through, if any. *)
Definition wait_loop (a : Args) (w : World) (r : Outcome)
  : Outcome * list os_event * option pyexc :=
  if timed_out (timeout a) (polls w) then
    match _kill_process_group (kill_oracle w) default_grace_seconds with
    | (evs, Some e) => (r, evs, Some e)
    | (evs, None) => (set_error (timeout_message (timeout a)) r, evs, None)
    end
  else (r, [], None).

(** The [try] body: spawn, open the logs, start the reader, wait, capture
    standard error, reconcile. *)
Definition try_body (a : Args) (w : World) (rid : string) (r : Outcome) : Attempt :=
  match popen w with
  | Some e => {| att_result := r; att_flow := Raised e; att_notes := []; att_signals := [] |}
  | None =>
      match open_logs w with
      | Some e =>
          {| att_result := r; att_flow := Raised e; att_notes := []; att_signals := [] |}
      | None =>
          let d := fst (reader (stream_progress a) rid w) in
          let stdout_text := concat_str (stdout_f d) in
          let stream_text := concat_str (stream_f d) in
          match wait_loop a w r with
          | (r, evs, Some e) =>
              {| att_result := r; att_flow := Raised e;
                 att_notes := console d; att_signals := evs |}
          | (r, evs, None) =>
              match stderr_read w with
              | Raise e =>
                  {| att_result := r; att_flow := Raised e;
                     att_notes := console d; att_signals := evs |}
              | Ok err_text =>
                  let rf :=
                    reconcile r (returncode w) (stream_progress a)
                      (final_result_event d) stream_text stdout_text err_text in
                  {| att_result := fst rf; att_flow := snd rf;
                     att_notes := console d; att_signals := evs |}
              end
          end
      end
  end.

(** The final summary: the lines that reached the console, and the
    exception of a [print] or of the preview, if one was raised. *)
Definition summary (w : World) (rid : string) (r : Outcome) : list console_ev * res unit :=
  if success r then
    match print_fault w (SuccessLine rid) with
    | Some e => ([], Raise e)
    | None =>
        match _safe_truncate (result r) 200 with
        | Raise e => ([SuccessLine rid], Raise e)
        | Ok text =>
            match print_fault w (ResultPreview text) with
            | Some e => ([SuccessLine rid], Raise e)
            | None => ([SuccessLine rid; ResultPreview text], Ok tt)
            end
        end
    end
  else
    match print_fault w (ErrorLine rid (error r)) with
    | Some e => ([], Raise e)
    | None => ([ErrorLine rid (error r)], Ok tt)
    end.

(** [if stream_log: print(...)] *)
Definition logs_pointer (w : World) (r : Outcome) : list console_ev * res unit :=
  match stream_log (artifacts r) with
  | Some path =>
      if nonempty path then
        match print_fault w (LogsLine path) with
        | Some e => ([], Raise e)
        | None => ([LogsLine path], Ok tt)
        end
      else ([], Ok tt)
  | None => ([], Ok tt)
  end.

(** [uuid.uuid4().hex[:10]] *)
Definition new_run_id (w : World) : string := take_str 10 (uuid4_hex w).

Definition stream_log_path (rid : string) : string :=
  artifacts_dir +:+ "/run_" +:+ rid +:+ ".stream.jsonl".

(** The dictionary as initialised before the [try]. *)
Definition initial_result (a : Args) (w : World) : Outcome :=
  let rid := new_run_id w in
  {| success := false; result := PStr EmptyString; session_id := PNone; error := None;
     artifacts :=
       {| run_id := rid;
          stream_log := if stream_progress a then Some (stream_log_path rid) else None;
          stdout_log := artifacts_dir +:+ "/run_" +:+ rid +:+ ".stdout.txt";
          stderr_log := artifacts_dir +:+ "/run_" +:+ rid +:+ ".stderr.txt" |} |}.

(** The dictionary once the [try] statement, its [except] clauses
    included, is over. *)
Definition reconciled (a : Args) (w : World) : Outcome :=
  let att := try_body a w (new_run_id w) (initial_result a w) in
  handle_exception (att_result att) (att_flow att).

(** [working_dir or os.getcwd()] *)
Definition run_cwd (a : Args) (w : World) : res string :=
  match working_dir a with
  | Some d => if nonempty d then Ok d else getcwd w
  | None => getcwd w
  end.

(** A run that ends on an exception: what was printed, and the exception. *)
Definition escaped (lines : list console_ev) (evs : list os_event) (e : pyexc) : Report :=
  {| printed := lines; signals := evs; returned := Raise e |}.

Definition run_subagent (a : Args) (w : World) : Report :=
  match _build_env (environ w) with
  | Raise e => escaped [] [] e
  | Ok env =>
  match run_cwd a w with
  | Raise e => escaped [] [] e
  | Ok cwd =>
  let rid := new_run_id w in
  match makedirs w with
  | Some e => escaped [] [] e
  | None =>
  match (if debug a then debug_log_start w else None) with
  | Some e => escaped [] [] e
  | None =>
  match print_fault w (Starting rid cwd) with
  | Some e => escaped [] [] e
  | None =>
  match _safe_truncate (PStr (task a)) 120 with
  | Raise e => escaped [Starting rid cwd] [] e
  | Ok preview =>
  match print_fault w (TaskPreview preview) with
  | Some e => escaped [Starting rid cwd] [] e
  | None =>
      let header := [Starting rid cwd; TaskPreview preview] in
      let att := try_body a w rid (initial_result a w) in
      let r := reconciled a w in
      (* finally *)
      match (if debug a then debug_log_end w else None) with
      | Some e => escaped (header ++ att_notes att)%list (att_signals att) e
      | None =>
          match att_flow att with
          | Returned =>
              {| printed := (header ++ att_notes att)%list; signals := att_signals att;
                 returned := Ok r |}
          | _ =>
              match summary w rid r with
              | (lines, Raise e) =>
                  escaped (header ++ att_notes att ++ lines)%list (att_signals att) e
              | (lines, Ok _) =>
                  match logs_pointer w r with
                  | (logs, Raise e) =>
                      escaped (header ++ att_notes att ++ lines ++ logs)%list
                        (att_signals att) e
                  | (logs, Ok _) =>
                      {| printed := (header ++ att_notes att ++ lines ++ logs)%list;
                         signals := att_signals att; returned := Ok r |}
                  end
              end
          end
      end
  end end end end end end end.

(** A direct call [run_subagent(task, ...)]: [None] is a keyword argument
    left out, which takes the default of the signature. *)
Record Kwargs : Type := {
  kw_working_dir : option string;
  kw_allowed_tools : option string;
  kw_timeout : option Z;
  kw_skip_permissions : option bool;
  kw_stream_progress : option bool;
  kw_max_budget_usd : option Q;
  kw_debug : option bool
}.

Definition bind_arguments (task : string) (kw : Kwargs) : Args :=
  {| task := task;
     working_dir := kw_working_dir kw;
     allowed_tools := kw_allowed_tools kw;
     timeout := default 600 (kw_timeout kw);
     skip_permissions := default true (kw_skip_permissions kw);
     stream_progress := default false (kw_stream_progress kw);
     max_budget_usd := kw_max_budget_usd kw;
     debug := default false (kw_debug kw) |}.

Definition call_run_subagent (task : string) (kw : Kwargs) (w : World) : Report :=
  run_subagent (bind_arguments task kw) w.

(** ** [main] *)

(** The command line once split: [None] is an option not given, [false] a
    switch not given. *)
Record Flags : Type := {
  flag_task : string;
  flag_cwd : option string;
  flag_allowed_tools : option string;
  flag_timeout : option Z;
  flag_require_permissions : bool;
  flag_stream : bool;
  flag_max_budget : option Q;
  flag_debug : bool
}.

(** [parser.parse_args()] followed by the keyword arguments of the call in
    [main]. *)
Definition parse_args (f : Flags) : Args :=
  {| task := flag_task f;
     working_dir := flag_cwd f;
     allowed_tools := flag_allowed_tools f;
     timeout := default 120 (flag_timeout f);
     skip_permissions := negb (flag_require_permissions f);
     stream_progress := flag_stream f;
     max_budget_usd := flag_max_budget f;
     debug := flag_debug f |}.

(** How the process ends: [sys.exit(code)], or an exception nobody caught. *)
Inductive process_end : Type :=
| Exit (code : Z)
| Uncaught (e : pyexc).

Record MainReport : Type := {
  main_printed : list console_ev;
  ended : process_end
}.

Definition result_json (r : Outcome) : pyobj :=
  PDict [("success", PBool (success r));
         ("result", result r);
         ("error", match error r with Some msg => PStr msg | None => PNone end)].

Definition main (f : Flags) (w : World) : MainReport :=
  let rep := run_subagent (parse_args f) w in
  match returned rep with
  | Raise e => {| main_printed := printed rep; ended := Uncaught e |}
  | Ok r =>
      match print_fault w (JsonLine (result_json r)) with
      | Some e => {| main_printed := printed rep; ended := Uncaught e |}
      | None =>
          {| main_printed := (printed rep ++ [JsonLine (result_json r)])%list;
             ended := Exit (if success r then 0 else 1) |}
      end
  end.

End Supervision.

(** ** Vocabulary of the specification *)

(** The console prints each of these lines. *)
Definition console_takes (w : World) (lines : list console_ev) : Prop :=
  Forall (fun line => print_fault w line = None) lines.

(** The run got as far as its [try] statement: the credentials resolved,
    the working directory is known, the artefact directory exists, the
    debug log, when asked for, opened, and the console printed the two
    header lines. *)
Definition set_up (a : Args) (w : World) : Prop :=
  exists env cwd preview,
    _build_env (environ w) = Ok env /\
    run_cwd a w = Ok cwd /\
    makedirs w = None /\
    (debug a = true -> debug_log_start w = None) /\
    _safe_truncate (PStr (task a)) 120 = Ok preview /\
    console_takes w [Starting (new_run_id w) cwd; TaskPreview preview].

(** The child started: the run got as far as its [try] statement, [Popen]
    returned and the log files opened. *)
Definition child_started (a : Args) (w : World) : Prop :=
  set_up a w /\ popen w = None /\ open_logs w = None.

(** The text of standard error decoded. *)
Definition stderr_captured (w : World) : Prop :=
  exists text, stderr_read w = Ok text.


(** The lines of the summary of a dictionary. *)
Definition summary_lines (rid : string) (r : Outcome) : list console_ev :=
  ((if success r then
      SuccessLine rid ::
        match _safe_truncate (result r) 200 with
        | Ok text => [ResultPreview text]
        | Raise _ => []
        end
    else [ErrorLine rid (error r)])
   ++ match stream_log (artifacts r) with
      | Some path => if nonempty path then [LogsLine path] else []
      | None => []
      end)%list.

(** The termination helper returned without letting an exception through. *)
Definition termination_returns (w : World) : Prop :=
  snd (_kill_process_group (kill_oracle w) default_grace_seconds) = None.

(** The [try] statement of a run. *)
Definition attempt (loads : string -> loaded) (a : Args) (w : World) : Attempt :=
  try_body loads a w (new_run_id w) (initial_result a w).

(** The run gets to report: the debug log, when asked for, takes its last
    line, and the console prints the summary of the reconciled dictionary. *)
Definition reported (loads : string -> loaded) (a : Args) (w : World) : Prop :=
  (debug a = true -> debug_log_end w = None) /\
  console_takes w (summary_lines (new_run_id w) (reconciled loads a w)).

(** What the reader wrote to the stdout log, as one text: the lines it
    took from the pipe; what the child wrote after a chunk that does not
    decode is not in it. *)
Definition captured_stdout (w : World) : string :=
  concat_str (stdout_lines w ++
              match stdout_fault w, pending_line w with
              | None, Some l => [l]
              | _, _ => []
              end).

(** The reader thread of a run, as the supervisor finds it. *)
Definition reader_of (loads : string -> loaded) (a : Args) (w : World) : Drain :=
  fst (reader loads (stream_progress a) (new_run_id w) w).

(** The persisted event-stream log of a run, as one text. *)
Definition stream_text_of (loads : string -> loaded) (a : Args) (w : World) : string :=
  concat_str (stream_f (reader_of loads a w)).


(** A text value. *)
Definition is_text (o : pyobj) : bool :=
  match o with
  | PStr _ => true
  | _ => false
  end.

(** A value the summary can preview: text, or a false value. *)
Definition previewable (o : pyobj) : Prop := Py.truthy o = true -> is_text o = true.

(** The field [k] of a decoded object, [dflt] when it has none. *)
Definition field_or (o : pyobj) (k : string) (dflt : pyobj) : pyobj :=
  match o with
  | PDict d => default dflt (Py.dict_get d k)
  | _ => dflt
  end.

(** A decoded value tagged [result]. *)
Definition is_result_event (o : pyobj) : bool :=
  match o with
  | PDict d => Py.eq_str (default PNone (Py.dict_get d "type")) "result"
  | _ => false
  end.

(** The lines of a log that decode to a [result] event, in order. *)
Definition result_events (loads : string -> loaded) (log_text : string) : list pyobj :=
  omap (fun ln =>
          match loads (strip ln) with
          | Loaded ev => if is_result_event ev then Some ev else None
          | _ => None
          end) (file_lines log_text).




(** A forced kill, of the group or of the child alone. *)
Definition forced_kill (e : os_event) : bool :=
  match e with
  | GroupSignalled SIGKILL | ChildSignalled SIGKILL => true
  | _ => false
  end.

(** *** Sentences of the specification that the program does not satisfy
    as they stand, stated as they stand *)

(** Every run has a final outcome, with [success] true or with [success]
    false and an error. *)
Definition every_run_has_outcome (loads : string -> loaded) (a : Args) (w : World) : Prop :=
  exists r, returned (run_subagent loads a w) = Ok r /\
            (success r = true \/ (success r = false /\ error r <> None)).


(** Timeout: failure with the timeout text, whatever else happens. *)
Definition timeout_always_reported (loads : string -> loaded) (a : Args) (w : World) : Prop :=
  child_started a w -> timed_out (timeout a) (polls w) = true ->
  exists r, returned (run_subagent loads a w) = Ok r /\ success r = false /\
            error r = Some (timeout_message (timeout a)).


(** Non-streaming, exit code zero: the [result] field itself, the empty
    string when absent; the raw text when the output does not parse. *)
Definition nonstreaming_passes_field (loads : string -> loaded) (a : Args) (w : World) : Prop :=
  child_started a w -> stream_progress a = false ->
  timed_out (timeout a) (polls w) = false -> returncode w = 0 ->
  exists r, returned (run_subagent loads a w) = Ok r /\ success r = true /\
    match loads (captured_stdout w) with
    | Loaded output =>
        result r = field_or output "result" (PStr EmptyString) /\
        session_id r = field_or output "session_id" PNone
    | JSONDecodeError | LoadsRaised _ => result r = PStr (captured_stdout w)
    end.

(** Streaming, exit code zero, nothing captured live: the payload of the
    last [result] line of the log, or the placeholder. *)
Definition rescan_passes_payload (loads : string -> loaded) (a : Args) (w : World) : Prop :=
  child_started a w -> stream_progress a = true ->
  timed_out (timeout a) (polls w) = false -> returncode w = 0 ->
  Py.truthy (final_result_event (reader_of loads a w)) = false ->
  exists r, returned (run_subagent loads a w) = Ok r /\ success r = true /\
    match last (result_events loads (stream_text_of loads a w)) with
    | Some ev =>
        (forall d v, ev = PDict d -> Py.dict_get d "result" = Some v -> result r = v) /\
        session_id r = field_or ev "session_id" PNone
    | None =>
        result r = PStr (no_result_placeholder (Some (stream_log_path (new_run_id w))))
    end.


(** ** Concrete runs *)

Module Sample.

Definition env_with_key : gmap string string := {[ "ZAI_API_KEY" := "secret" ]}.

Definition calm : KillOracle :=
  {| term_group := None; wait_grace := Exited; kill_group := None;
     wait_reap := Exited; child_kill := None |}.

Definition no_such_process : pyexc := Exc OtherError "[Errno 3] No such process".

(** The child ignores SIGTERM; the forced kill goes through. *)
Definition stubborn : KillOracle :=
  {| term_group := None; wait_grace := Expired; kill_group := None;
     wait_reap := Exited; child_kill := None |}.

(** The child ignores SIGTERM and is gone when the forced kill looks for
    its group. *)
Definition vanished : KillOracle :=
  {| term_group := None; wait_grace := Expired; kill_group := Some no_such_process;
     wait_reap := Exited; child_kill := None |}.


(** A host on which nothing fails: every system call returns, the
    console prints every line, and both pipes decode. *)
Definition world (env : gmap string string) (polls : list Q) (code : Z) (o : KillOracle)
    (lines : list string) (pending : option string) (err : string) : World :=
  {| environ := env; getcwd := Ok "/home/dev/project";
     uuid4_hex := "0123456789abcdef0123456789abcdef";
     makedirs := None; debug_log_start := None; debug_log_end := None;
     print_fault := fun _ => None;
     popen := None; open_logs := None; polls := polls; returncode := code;
     kill_oracle := o; stdout_lines := lines; stdout_fault := None;
     pending_line := pending; stderr_read := Ok err |}.

(** The same world with another answer of one call. *)
Definition with_stderr (answer : res string) (w : World) : World :=
  {| environ := environ w; getcwd := getcwd w; uuid4_hex := uuid4_hex w;
     makedirs := makedirs w; debug_log_start := debug_log_start w;
     debug_log_end := debug_log_end w; print_fault := print_fault w;
     popen := popen w; open_logs := open_logs w; polls := polls w;
     returncode := returncode w; kill_oracle := kill_oracle w;
     stdout_lines := stdout_lines w; stdout_fault := stdout_fault w;
     pending_line := pending_line w; stderr_read := answer |}.

Definition with_stdout_fault (e : pyexc) (w : World) : World :=
  {| environ := environ w; getcwd := getcwd w; uuid4_hex := uuid4_hex w;
     makedirs := makedirs w; debug_log_start := debug_log_start w;
     debug_log_end := debug_log_end w; print_fault := print_fault w;
     popen := popen w; open_logs := open_logs w; polls := polls w;
     returncode := returncode w; kill_oracle := kill_oracle w;
     stdout_lines := stdout_lines w; stdout_fault := Some e;
     pending_line := pending_line w; stderr_read := stderr_read w |}.

Definition with_makedirs (e : pyexc) (w : World) : World :=
  {| environ := environ w; getcwd := getcwd w; uuid4_hex := uuid4_hex w;
     makedirs := Some e; debug_log_start := debug_log_start w;
     debug_log_end := debug_log_end w; print_fault := print_fault w;
     popen := popen w; open_logs := open_logs w; polls := polls w;
     returncode := returncode w; kill_oracle := kill_oracle w;
     stdout_lines := stdout_lines w; stdout_fault := stdout_fault w;
     pending_line := pending_line w; stderr_read := stderr_read w |}.

Definition with_console (fault : console_ev -> option pyexc) (w : World) : World :=
  {| environ := environ w; getcwd := getcwd w; uuid4_hex := uuid4_hex w;
     makedirs := makedirs w; debug_log_start := debug_log_start w;
     debug_log_end := debug_log_end w; print_fault := fault;
     popen := popen w; open_logs := open_logs w; polls := polls w;
     returncode := returncode w; kill_oracle := kill_oracle w;
     stdout_lines := stdout_lines w; stdout_fault := stdout_fault w;
     pending_line := pending_line w; stderr_read := stderr_read w |}.

Definition no_kwargs : Kwargs :=
  {| kw_working_dir := None; kw_allowed_tools := None; kw_timeout := None;
     kw_skip_permissions := None; kw_stream_progress := None;
     kw_max_budget_usd := None; kw_debug := None |}.

Definition flags (streaming : bool) (timeout : option Z) : Flags :=
  {| flag_task := "list files"; flag_cwd := None; flag_allowed_tools := None;
     flag_timeout := timeout; flag_require_permissions := false;
     flag_stream := streaming; flag_max_budget := None; flag_debug := false |}.

Definition plain : Args := bind_arguments "list files" no_kwargs.
Definition streaming : Args := parse_args (flags true None).

Definition lf : string := String "010"%char EmptyString.

Definition done_text : string := dq "{'result': 'done', 'session_id': 'abc'}".
Definition zero_text : string := dq "{'result': 0}".
Definition read_line : string :=
  dq "{'type':'assistant','message':{'content':[{'type':'tool_use','name':'Read'}]}}" +:+ lf.
Definition ok_line : string := dq "{'type':'result','result':'ok','session_id':'s1'}" +:+ lf.
Definition zero_line : string := dq "{'type':'result','result':0}" +:+ lf.
Definition array_line : string := "[1]" +:+ lf.

(** Spec scenario: exit code 0 and a complete JSON document. *)
Definition w_done : World := world env_with_key [0.1%Q; 0.2%Q] 0 calm [done_text] None EmptyString.
(** The [result] field is the number 0. *)
Definition w_zero : World := world env_with_key [0.1%Q] 0 calm [zero_text] None EmptyString.
(** Output that is not JSON. *)
Definition w_raw : World := world env_with_key [0.1%Q] 0 calm ["all good" +:+ lf] None EmptyString.
(** Spec scenario: exit code 2 and a message on standard error. *)
Definition w_denied : World :=
  world env_with_key [0.1%Q] 2 calm [done_text] None ("permission denied" +:+ lf).
(** Spec scenario: the child outlives a timeout of 120 seconds. *)
Definition w_slow : World :=
  world env_with_key [0.1%Q; 60%Q; 120.1%Q] 0 stubborn [ok_line] None EmptyString.
(** The same, and the group is gone at the forced kill. *)
Definition w_slow_vanished : World :=
  world env_with_key [0.1%Q; 60%Q; 120.1%Q] 0 vanished [ok_line] None EmptyString.
(** The [result] field is the number 5. *)
Definition w_five : World :=
  world env_with_key [0.1%Q] 0 calm [dq "{'result': 5}"] None EmptyString.
(** No credentials in the environment. *)
Definition w_no_key : World := world ∅ [0.1%Q] 0 calm [done_text] None EmptyString.
(** The result line reached the log; the reader had not interpreted it. *)
Definition w_lagging : World := world env_with_key [0.1%Q] 0 calm [read_line] (Some ok_line) EmptyString.
Definition w_lagging_zero : World :=
  world env_with_key [0.1%Q] 0 calm [read_line] (Some zero_line) EmptyString.
(** A streaming run without any result event. *)
Definition w_no_result : World := world env_with_key [0.1%Q] 0 calm [read_line] None EmptyString.
(** A child alive for five minutes, then exiting with code 0. *)
Definition w_five_minutes : World :=
  world env_with_key [0.1%Q; 300%Q] 0 stubborn [done_text] None EmptyString.

(** The program [claude] is not installed. *)
Definition missing_cli : pyexc :=
  Exc FileNotFoundError "[Errno 2] No such file or directory: 'claude'".
Definition w_no_cli : World :=
  {| environ := env_with_key; getcwd := Ok "/home/dev/project";
     uuid4_hex := "0123456789abcdef0123456789abcdef";
     makedirs := None; debug_log_start := None; debug_log_end := None;
     print_fault := fun _ => None;
     popen := Some missing_cli; open_logs := None; polls := []; returncode := 0;
     kill_oracle := calm; stdout_lines := []; stdout_fault := None;
     pending_line := None; stderr_read := Ok EmptyString |}.

(** Bytes that are not UTF-8 on a pipe opened in text mode. *)
Definition not_utf8 : pyexc :=
  Exc UnicodeDecodeError
    "'utf-8' codec can't decode byte 0xff in position 0: invalid start byte".

(** The timeout strikes, the termination goes through, and standard error
    does not decode. *)
Definition w_slow_garbled : World := with_stderr (Raise not_utf8) w_slow.
(** Standard output that does not decode: the reader ends before its
    first line. *)
Definition w_garbled_stdout : World :=
  with_stdout_fault not_utf8 (world env_with_key [0.1%Q] 0 calm [] None EmptyString).

(** [n] times the digit 9. *)
Fixpoint nines (n : nat) : string :=
  match n with
  | O => EmptyString
  | S m => String "9"%char (nines m)
  end.

(** Standard output is an integer literal of 4301 digits. *)
Definition w_long_int : World :=
  world env_with_key [0.1%Q] 0 calm [nines 4301] None EmptyString.

(** The artefact directory cannot be made: a file has its name. *)
Definition file_exists : pyexc :=
  Exc OtherError "[Errno 17] File exists: '/tmp/glm-native-subagent'".
Definition w_no_dir : World := with_makedirs file_exists w_done.

(** A console that encodes ASCII only: the marks of the summary do not
    print. *)
Definition ascii_only (line : console_ev) : option pyexc :=
  match line with
  | SuccessLine _ =>
      Some (Exc UnicodeEncodeError
        "'ascii' codec can't encode character '\u2705' in position 22: ordinal not in range(128)")
  | ErrorLine _ _ =>
      Some (Exc UnicodeEncodeError
        "'ascii' codec can't encode character '\u274c' in position 22: ordinal not in range(128)")
  | _ => None
  end.
Definition w_ascii_console : World := with_console ascii_only w_done.


End Sample.

(** ** Further parts of the program *)

(** The text appended to the system prompt of the child. *)
Definition subagent_prompt : string :=
  "You are a coding sub-agent. Complete the given task efficiently.
Guidelines:
- Read existing files before modifying them
- Use Edit tool for surgical changes to existing files
- Use Write tool only for new files
- Follow existing project conventions
- When done, provide a clear summary of what you accomplished".

Section CommandLine.

(** [str(x)] for a [float]; its digits are not modelled. *)
Variable str_of_float : Q -> string.

(** The permission arguments: the skip flag, else the allow-list when it
    is a non-empty text. *)
Definition permission_args (a : Args) : list string :=
  if skip_permissions a then ["--dangerously-skip-permissions"]
  else
    match allowed_tools a with
    | Some tools => if nonempty tools then ["--allowedTools"; tools] else []
    | None => []
    end.

(** The list [cmd] given to [Popen]. *)
Definition build_cmd (a : Args) : list string :=
  (["claude"; "-p"; task a; "--output-format";
    if stream_progress a then "stream-json" else "json"]
   ++ (if stream_progress a then ["--verbose"] else [])
   ++ permission_args a
   ++ ["--append-system-prompt"; subagent_prompt; "--no-session-persistence"]
   ++ match max_budget_usd a with
      | Some budget => ["--max-budget-usd"; str_of_float budget]
      | None => []
      end)%list.

End CommandLine.

(** The same arguments with another allow-list. *)
Definition with_allowed_tools (tools : option string) (a : Args) : Args :=
  {| task := task a; working_dir := working_dir a; allowed_tools := tools;
     timeout := timeout a; skip_permissions := skip_permissions a;
     stream_progress := stream_progress a; max_budget_usd := max_budget_usd a;
     debug := debug a |}.

(** A complete line as the text-mode pipe delivers it: it ends with a
    line feed and has no other one, and no carriage return. *)
Fixpoint proper_line (s : string) : bool :=
  match s with
  | EmptyString => false
  | String c r =>
      if Ascii.eqb c "010"%char then negb (nonempty r)
      else negb (Ascii.eqb c "013"%char) && proper_line r
  end.

(** A line of the summary: the verdict, the preview of the result, the
    pointer to the logs. *)
Definition summary_line (e : console_ev) : bool :=
  match e with
  | SuccessLine _ | ResultPreview _ | ErrorLine _ _ | LogsLine _ => true
  | _ => false
  end.

(** The seconds [_kill_process_group] spent in [proc.wait]. *)
Fixpoint waited_seconds (evs : list os_event) : Z :=
  match evs with
  | [] => 0
  | Waited seconds _ :: rest => seconds + waited_seconds rest
  | _ :: rest => waited_seconds rest
  end.

(** The number of forced kills in a trace. *)
Definition forced_kills (evs : list os_event) : nat :=
  length (List.filter forced_kill evs).

(** A line printed by the summary or the header with a preview in it. *)
Definition preview_length (e : console_ev) : nat :=
  match e with
  | TaskPreview text | ResultPreview text => String.length text
  | _ => 0
  end.

(** What the reader prints: tool names and completion notes only. *)
Definition reader_note (e : console_ev) : bool :=
  match e with
  | ToolNote _ _ | CompleteNote _ => true
  | _ => false
  end.

Module Demo.

Definition both_keys : gmap string string :=
  {[ "ANTHROPIC_AUTH_TOKEN" := "primary"; "ZAI_API_KEY" := "secondary";
     "ZAI_BASE_URL" := "https://example.test/api"; "PATH" := "/usr/bin" ]}.

Definition empty_primary : gmap string string :=
  {[ "ANTHROPIC_AUTH_TOKEN" := EmptyString; "ZAI_API_KEY" := "secondary" ]}.

Definition restricted : Args :=
  {| task := "list files"; working_dir := None; allowed_tools := Some "Read,Edit";
     timeout := 600; skip_permissions := true; stream_progress := true;
     max_budget_usd := None; debug := false |}.

(** The reader saw the whole result line. *)
Definition w_live : World :=
  Sample.world Sample.env_with_key [0.1%Q] 0 Sample.calm
    [Sample.read_line; Sample.ok_line] None EmptyString.

(** Standard output is a JSON array. *)
Definition w_array : World :=
  Sample.world Sample.env_with_key [0.1%Q] 0 Sample.calm ["[1]"] None EmptyString.

End Demo.

(** * Properties *)

(** ** Text *)

Section TextFacts.










Lemma exit_code_message_nonempty n : nonempty (exit_code_message n) = true.
Proof. reflexivity. Qed.

Lemma timeout_message_nonempty t : nonempty (timeout_message t) = true.
Proof. reflexivity. Qed.


End TextFacts.

(** ** Termination of the process group *)

Section Escalation.

Variable o : KillOracle.
Variable grace : Z.

(** Whatever the system calls answer, the events form one of six traces. *)
Lemma escalation_traces :
  let evs := fst (_kill_process_group o grace) in
  evs = [] \/ evs = [ChildSignalled SIGKILL] \/
  evs = [GroupSignalled SIGTERM] \/ evs = [GroupSignalled SIGTERM; ChildSignalled SIGKILL] \/
  (exists b, evs = [GroupSignalled SIGTERM; Waited grace b]) \/
  (exists tail, evs = GroupSignalled SIGTERM :: Waited grace false :: GroupSignalled SIGKILL :: tail /\
                (tail = [] \/ exists b, tail = [Waited 2 b])).
Proof.
  unfold _kill_process_group, kill_try.
  destruct (term_group o), (wait_grace o), (kill_group o), (wait_reap o), (child_kill o);
    cbn; naive_solver.
Qed.


(** When the graceful signal cannot be sent, the helper falls back to
    [proc.kill()] at once: no signal reaches the group, nothing is waited
    for, and no exception gets out. *)
Lemma fallback_is_immediate_child_kill e :
  term_group o = Some e ->
  _kill_process_group o grace =
    (match child_kill o with
     | None => [ChildSignalled SIGKILL]
     | Some _ => []
     end, None).
Proof.
  intros Hterm. unfold _kill_process_group, kill_try. rewrite Hterm.
  by destruct (child_kill o).
Qed.

End Escalation.




(** ** The run *)

Section RunFacts.

Variable loads : string -> loaded.

Lemma take_result_spec ev r :
  take_result ev r =
    match ev with
    | PDict _ =>
        (set_session_id (field_or ev "session_id" PNone)
           (set_result (Py.or_else (field_or ev "result" (PStr EmptyString)) (PStr EmptyString))
              (set_success true r)), Fallthrough)
    | _ => (set_success true r, Raised (Py.no_attribute ev "get"))
    end.
Proof. by destruct ev. Qed.

Lemma take_result_success ev r :
  success (handle_exception (take_result ev r).1 (take_result ev r).2) = true.
Proof.
  rewrite take_result_spec. destruct ev; cbn; try done;
    by destruct (is_file_not_found _).
Qed.

Lemma take_result_not_returned ev r : (take_result ev r).2 <> Returned.
Proof. rewrite take_result_spec. by destruct ev. Qed.

Lemma handle_raised r e : exists msg, handle_exception r (Raised e) = set_error msg r.
Proof. cbn. destruct (is_file_not_found e); eauto. Qed.

Lemma handle_raised_text r e :
  handle_exception r (Raised e)
    = set_error (if is_file_not_found e then cli_not_found else str_exc e) r.
Proof. cbn. by destruct (is_file_not_found e). Qed.

(** With no error recorded yet, reconciliation never returns early, and
    it ends either in a success or with the untouched dictionary plus an
    error text. *)
Lemma reconcile_settles r code streaming final stream_text stdout_text err_text :
  error r = None ->
  let rf := reconcile loads r code streaming final stream_text stdout_text err_text in
  rf.2 <> Returned /\
  (success (handle_exception rf.1 rf.2) = true \/
   exists msg, handle_exception rf.1 rf.2 = set_error msg r).
Proof.
  intros Herr. unfold reconcile. rewrite Herr.
  destruct (code =? 0); [|cbn; split; [done | right; eauto]].
  destruct streaming.
  - destruct (Py.truthy final).
    + split; [apply take_result_not_returned | left; apply take_result_success].
    + destruct (Py.truthy _).
      * split; [apply take_result_not_returned | left; apply take_result_success].
      * cbn. split; [done | by left].
  - destruct (loads stdout_text) as [output| |e].
    + split; [apply take_result_not_returned | left; apply take_result_success].
    + cbn. split; [done | by left].
    + split; [done | right; apply handle_raised].
Qed.

(** With an error recorded, reconciliation returns at once. *)
Lemma reconcile_returns_early r msg code streaming final stream_text stdout_text err_text :
  error r = Some msg -> nonempty msg = true ->
  reconcile loads r code streaming final stream_text stdout_text err_text = (r, Returned).
Proof. intros Herr Hmsg. unfold reconcile. by rewrite Herr, Hmsg. Qed.

(** The dictionary after the [try] statement when the child is left to
    run to its end. *)
Lemma reconciled_running a w :
  popen w = None -> open_logs w = None -> timed_out (timeout a) (polls w) = false ->
  reconciled loads a w =
    match stderr_read w with
    | Ok err_text =>
        let d := reader_of loads a w in
        let rf := reconcile loads (initial_result a w) (returncode w) (stream_progress a)
                    (final_result_event d) (concat_str (stream_f d)) (concat_str (stdout_f d))
                    err_text in
        handle_exception rf.1 rf.2
    | Raise e => handle_exception (initial_result a w) (Raised e)
    end.
Proof.
  intros Hp Ho Ht. unfold reconciled, try_body, wait_loop. rewrite Hp, Ho, Ht.
  by destruct (stderr_read w).
Qed.

(** The dictionary after the [try] statement when the timeout strikes:
    reconciliation is skipped, but the exception of the termination helper
    or of the capture of standard error replaces the timeout text. *)
Lemma reconciled_timed_out a w :
  popen w = None -> open_logs w = None -> timed_out (timeout a) (polls w) = true ->
  reconciled loads a w =
    match (_kill_process_group (kill_oracle w) default_grace_seconds).2 with
    | Some e => handle_exception (initial_result a w) (Raised e)
    | None =>
        match stderr_read w with
        | Ok _ => set_error (timeout_message (timeout a)) (initial_result a w)
        | Raise e =>
            set_error (if is_file_not_found e then cli_not_found else str_exc e)
              (initial_result a w)
        end
    end.
Proof.
  intros Hp Ho Ht. unfold reconciled, try_body, wait_loop. rewrite Hp, Ho, Ht.
  destruct (_kill_process_group _ _) as [evs [e|]]; [done|].
  cbn [snd]. destruct (stderr_read w) as [err_text|e].
  - cbn [att_result att_flow]. by erewrite reconcile_returns_early.
  - cbn [att_result att_flow]. by rewrite handle_raised_text.
Qed.

(** The dictionary after the [try] statement: a success, or the initial
    dictionary with an error text. *)
Lemma reconciled_cases a w :
  success (reconciled loads a w) = true \/
  exists msg, reconciled loads a w = set_error msg (initial_result a w).
Proof.
  destruct (popen w) as [e|] eqn:Hp.
  { right. unfold reconciled, try_body. rewrite Hp. apply handle_raised. }
  destruct (open_logs w) as [e|] eqn:Ho.
  { right. unfold reconciled, try_body. rewrite Hp, Ho. apply handle_raised. }
  destruct (timed_out (timeout a) (polls w)) eqn:Ht.
  - right. rewrite (reconciled_timed_out a w Hp Ho Ht).
    destruct (_kill_process_group _ _).2; [apply handle_raised|].
    destruct (stderr_read w); eauto.
  - rewrite (reconciled_running a w Hp Ho Ht).
    destruct (stderr_read w) as [err_text|e]; [|right; apply handle_raised].
    by apply reconcile_settles.
Qed.

(** An early return only happens on the timeout path, with a failure. *)
Lemma early_return_is_failure a w :
  att_flow (attempt loads a w) = Returned -> success (reconciled loads a w) = false.
Proof.
  unfold attempt, reconciled, try_body, wait_loop.
  destruct (popen w) as [e|]; [done|].
  destruct (open_logs w) as [e|]; [done|].
  destruct (timed_out _ _).
  - destruct (_kill_process_group _ _) as [evs [e|]]; [done|].
    destruct (stderr_read w) as [err_text|e]; [|done].
    cbn [att_result att_flow].
    erewrite reconcile_returns_early; [done | reflexivity | reflexivity].
  - destruct (stderr_read w) as [err_text|e]; [|done].
    cbn [att_result att_flow]. intros H.
    by destruct (reconcile_settles (initial_result a w) (returncode w) (stream_progress a)
                   (final_result_event (reader loads (stream_progress a) (new_run_id w) w).1)
                   (concat_str (stream_f (reader loads (stream_progress a) (new_run_id w) w).1))
                   (concat_str (stdout_f (reader loads (stream_progress a) (new_run_id w) w).1))
                   err_text eq_refl) as [Hne _].
Qed.

(** An early return is the return of the timeout path: the termination
    helper returned and standard error decoded. *)
Lemma early_return_iff a w :
  att_flow (attempt loads a w) = Returned <->
  popen w = None /\ open_logs w = None /\ timed_out (timeout a) (polls w) = true /\
  (_kill_process_group (kill_oracle w) default_grace_seconds).2 = None /\
  exists err_text, stderr_read w = Ok err_text.
Proof.
  unfold attempt, try_body, wait_loop.
  destruct (popen w) as [e|]; [by split; [|intros (? & _)]|].
  destruct (open_logs w) as [e|]; [by split; [|intros (_ & ? & _)]|].
  destruct (timed_out _ _).
  - destruct (_kill_process_group _ _) as [evs [e|]];
      [by split; [|intros (_ & _ & _ & ? & _)]|].
    destruct (stderr_read w) as [err_text|e];
      [|by split; [|intros (_ & _ & _ & _ & [? ?])]].
    cbn [att_flow snd]. erewrite reconcile_returns_early; [|reflexivity|reflexivity].
    split; [|done]. intros _. repeat split. by eexists.
  - split; [|by intros (_ & _ & ? & _)].
    destruct (stderr_read w) as [err_text|e]; [|done].
    cbn [att_flow]. intros H.
    by destruct (reconcile_settles (initial_result a w) (returncode w) (stream_progress a)
                   (final_result_event (reader loads (stream_progress a) (new_run_id w) w).1)
                   (concat_str (stream_f (reader loads (stream_progress a) (new_run_id w) w).1))
                   (concat_str (stdout_f (reader loads (stream_progress a) (new_run_id w) w).1))
                   err_text eq_refl) as [Hne _].
Qed.

Lemma safe_truncate_raises o n e : _safe_truncate o n = Raise e -> exc_kind_of e = TypeError.
Proof.
  destruct o as [| | | | |l|d]; cbn; try destruct l; try destruct d;
    try case_match; intros; by simplify_eq.
Qed.

Lemma safe_truncate_previewable o n :
  previewable o -> exists text, _safe_truncate o n = Ok text.
Proof.
  intros Hp. unfold _safe_truncate.
  destruct o; try (by eexists);
    (destruct (Py.truthy _) eqn:E; [by specialize (Hp E) | by eexists]).
Qed.

(** What [run_subagent] does once it got as far as its [try] statement. *)
Lemma run_after_set_up a w :
  set_up a w ->
  exists cwd preview,
    run_subagent loads a w =
      let header := [Starting (new_run_id w) cwd; TaskPreview preview] in
      let att := attempt loads a w in
      let r := reconciled loads a w in
      match (if debug a then debug_log_end w else None) with
      | Some e => escaped (header ++ att_notes att)%list (att_signals att) e
      | None =>
          match att_flow att with
          | Returned =>
              {| printed := (header ++ att_notes att)%list; signals := att_signals att;
                 returned := Ok r |}
          | _ =>
              match summary w (new_run_id w) r with
              | (lines, Raise e) =>
                  escaped (header ++ att_notes att ++ lines)%list (att_signals att) e
              | (lines, Ok _) =>
                  match logs_pointer w r with
                  | (logs, Raise e) =>
                      escaped (header ++ att_notes att ++ lines ++ logs)%list
                        (att_signals att) e
                  | (logs, Ok _) =>
                      {| printed := (header ++ att_notes att ++ lines ++ logs)%list;
                         signals := att_signals att; returned := Ok r |}
                  end
              end
          end
      end.
Proof.
  intros (env & cwd & preview & Henv & Hcwd & Hmk & Hdbg & Hprev & Htakes).
  apply Forall_cons in Htakes as [Hstart Htakes].
  apply Forall_cons in Htakes as [Htask _].
  exists cwd, preview. unfold run_subagent. rewrite Henv, Hcwd, Hmk, Hstart, Hprev, Htask.
  destruct (debug a); [by rewrite Hdbg | done].
Qed.

(** When the console takes the summary, the prints succeed: only the
    preview of the result can still raise. *)
Lemma summary_taken w rid r :
  console_takes w (summary_lines rid r) ->
  (summary w rid r).2 =
    (if success r then
       match _safe_truncate (result r) 200 with
       | Ok _ => Ok tt
       | Raise e => Raise e
       end
     else Ok tt) /\
  (logs_pointer w r).2 = Ok tt.
Proof.
  unfold console_takes, summary_lines, summary, logs_pointer.
  intros [Hs Hl]%Forall_app. split.
  - destruct (success r).
    + apply Forall_cons in Hs as [-> Hs].
      destruct (_safe_truncate (result r) 200) as [text|e]; [|done].
      by apply Forall_cons in Hs as [-> _].
    + by apply Forall_cons in Hs as [-> _].
  - destruct (stream_log (artifacts r)) as [path|]; [|done].
    destruct (nonempty path); [|done].
    by apply Forall_cons in Hl as [-> _].
Qed.

(** What [run_subagent] returns when it got as far as its [try]
    statement and gets to report: the reconciled dictionary, unless the
    preview of a successful result raises. *)
Lemma returned_after_set_up a w :
  set_up a w -> reported loads a w ->
  returned (run_subagent loads a w) =
    if success (reconciled loads a w) then
      match _safe_truncate (result (reconciled loads a w)) 200 with
      | Ok _ => Ok (reconciled loads a w)
      | Raise e => Raise e
      end
    else Ok (reconciled loads a w).
Proof.
  intros Hset [Hend Htakes].
  destruct (run_after_set_up a w Hset) as (cwd & preview & ->). cbn zeta.
  assert ((if debug a then debug_log_end w else None) = None) as ->.
  { destruct (debug a); [by apply Hend | done]. }
  destruct (att_flow (attempt loads a w)) eqn:Hflow.
  2:{ by rewrite (early_return_is_failure _ _ Hflow). }
  all: destruct (summary_taken w (new_run_id w) _ Htakes) as [Hsum Hlogs];
    destruct (summary w (new_run_id w) (reconciled loads a w)) as [lines out];
    destruct (logs_pointer w (reconciled loads a w)) as [logs out'];
    cbn [snd] in Hsum, Hlogs; subst out out';
    destruct (success _); [destruct (_safe_truncate _ _)|]; done.
Qed.

(** A dictionary that is returned is the reconciled one. *)
Lemma returned_is_reconciled a w r :
  returned (run_subagent loads a w) = Ok r -> r = reconciled loads a w.
Proof.
  unfold run_subagent, escaped. intros H.
  repeat case_match; cbn in H; by simplify_eq.
Qed.

Lemma summary_raises w rid r lines e :
  summary w rid r = (lines, Raise e) ->
  (exists line, print_fault w line = Some e) \/
  (success r = true /\ _safe_truncate (result r) 200 = Raise e).
Proof.
  unfold summary. intros H. repeat case_match; simplify_eq; eauto.
Qed.

Lemma logs_pointer_raises w r logs e :
  logs_pointer w r = (logs, Raise e) -> exists line, print_fault w line = Some e.
Proof.
  unfold logs_pointer. intros H. repeat case_match; simplify_eq; eauto.
Qed.

End RunFacts.

Section RunClaims.

Variable loads : string -> loaded.

(** C1, as amended: every dictionary a run returns has [success] true, or
    [success] false together with an error text, and never both, in every
    configuration.  A run returns no dictionary exactly by letting an
    exception through, and that exception comes from one of the statements
    outside the [try]: the credential resolver, [os.getcwd], [os.makedirs],
    the debug log, a [print], or the preview of a successful result. *)
Theorem outcome_success_xor_error (a : Args) (w : World) :
  match returned (run_subagent loads a w) with
  | Ok r =>
      (success r = true \/ (success r = false /\ error r <> None)) /\
      ~ (success r = true /\ (success r = false /\ error r <> None))
  | Raise e =>
      _build_env (environ w) = Raise e \/
      run_cwd a w = Raise e \/
      makedirs w = Some e \/
      (debug a = true /\ (debug_log_start w = Some e \/ debug_log_end w = Some e)) \/
      (exists line, print_fault w line = Some e) \/
      (success (reconciled loads a w) = true /\
       _safe_truncate (result (reconciled loads a w)) 200 = Raise e)
  end.
Proof.
  destruct (returned (run_subagent loads a w)) as [r|e] eqn:Hret.
  - apply returned_is_reconciled in Hret as ->.
    destruct (reconciled_cases loads a w) as [Hs|[msg Hm]].
    + split; [by left | intros [H1 [H2 _]]; congruence].
    + rewrite Hm. cbn. split; [by right | by intros [? _]].
  - unfold run_subagent, escaped in Hret.
    destruct (_build_env (environ w)) as [env|e0]; [|left; by simplify_eq/=].
    destruct (run_cwd a w) as [cwd|e0]; [|right; left; by simplify_eq/=].
    destruct (makedirs w) as [e0|]; [do 2 right; left; by simplify_eq/=|].
    destruct (debug a) eqn:Hdebug.
    + destruct (debug_log_start w) as [e0|]; [do 3 right; left; simplify_eq/=; eauto|].
      destruct (print_fault w (Starting _ _)) as [e0|] eqn:H1;
        [do 4 right; left; simplify_eq/=; eauto|].
      cbn [_safe_truncate] in Hret.
      destruct (print_fault w (TaskPreview _)) as [e0|] eqn:H2;
        [do 4 right; left; simplify_eq/=; eauto|].
      destruct (debug_log_end w) as [e0|]; [do 3 right; left; simplify_eq/=; eauto|].
      destruct (att_flow _); [|done|];
        (destruct (summary w _ _) as [lines [[]|es]] eqn:Hsum;
         [destruct (logs_pointer w _) as [logs [[]|el]] eqn:Hlogs; [done|];
          simplify_eq/=; do 4 right; left; by eapply logs_pointer_raises
         |simplify_eq/=; do 4 right;
          destruct (summary_raises _ _ _ _ _ Hsum) as [?|?]; [by left | by right]]).
    + destruct (print_fault w (Starting _ _)) as [e0|] eqn:H1;
        [do 4 right; left; simplify_eq/=; eauto|].
      cbn [_safe_truncate] in Hret.
      destruct (print_fault w (TaskPreview _)) as [e0|] eqn:H2;
        [do 4 right; left; simplify_eq/=; eauto|].
      destruct (att_flow _); [|done|];
        (destruct (summary w _ _) as [lines [[]|es]] eqn:Hsum;
         [destruct (logs_pointer w _) as [logs [[]|el]] eqn:Hlogs; [done|];
          simplify_eq/=; do 4 right; left; by eapply logs_pointer_raises
         |simplify_eq/=; do 4 right;
          destruct (summary_raises _ _ _ _ _ Hsum) as [?|?]; [by left | by right]]).
Qed.


(** When the deadline passes with the child alive, the run that returns a
    dictionary fails; when the termination helper returns and standard
    error decodes, the error is the timeout text and the rest of the
    dictionary is as initialised, whatever the child printed and whatever
    its exit code. *)
Lemma timeout_is_failure (a : Args) (w : World) :
  child_started a w ->
  timed_out (timeout a) (polls w) = true ->
  reported loads a w ->
  exists r,
    returned (run_subagent loads a w) = Ok r /\
    success r = false /\
    (termination_returns w -> stderr_captured w ->
       r = set_error (timeout_message (timeout a)) (initial_result a w)).
Proof.
  intros (Hset & Hp & Ho) Ht Hrep.
  rewrite (returned_after_set_up loads a w Hset Hrep).
  rewrite (reconciled_timed_out loads a w Hp Ho Ht).
  unfold termination_returns, stderr_captured.
  destruct (_kill_process_group _ _).2 as [e|].
  - destruct (handle_raised (initial_result a w) e) as [msg ->].
    cbn. eexists. by repeat split.
  - destruct (stderr_read w) as [err_text|e]; cbn; eexists; repeat split; try done.
    by intros _ [? ?].
Qed.

End RunClaims.

(** *** Concrete worlds *)

Lemma build_env_returns environ :
  falsy (get_or environ "ANTHROPIC_AUTH_TOKEN" "ZAI_API_KEY") = false ->
  exists env, _build_env environ = Ok env.
Proof. intros Htoken. unfold _build_env. rewrite Htoken. by eexists. Qed.

(** On a host where the calls before the [try] return and the console
    prints every line, a run with credentials gets as far as the [try]. *)
Lemma set_up_on_quiet_host a w cwd :
  falsy (get_or (environ w) "ANTHROPIC_AUTH_TOKEN" "ZAI_API_KEY") = false ->
  getcwd w = Ok cwd ->
  makedirs w = None ->
  debug_log_start w = None ->
  (forall line, print_fault w line = None) ->
  set_up a w.
Proof.
  intros [env Henv]%build_env_returns Hcwd Hmk Hdbg Hprint.
  assert (exists d, run_cwd a w = Ok d) as [d Hd].
  { unfold run_cwd. destruct (working_dir a) as [d|]; [destruct (nonempty d)|]; eauto. }
  exists env, d. eexists. repeat split; try done.
  repeat constructor; apply Hprint.
Qed.

Lemma reported_on_quiet_host loads a w :
  debug_log_end w = None ->
  (forall line, print_fault w line = None) ->
  reported loads a w.
Proof.
  intros Hend Hprint. split; [done|].
  apply Forall_forall. intros line _. apply Hprint.
Qed.

Ltac quiet_host :=
  lazymatch goal with
  | |- set_up _ _ =>
      eapply set_up_on_quiet_host;
      [vm_compute; reflexivity | reflexivity | reflexivity | reflexivity
       | intros; reflexivity]
  | |- child_started _ _ =>
      split; [quiet_host | split; reflexivity]
  | |- reported _ _ _ =>
      apply reported_on_quiet_host; [reflexivity | intros; reflexivity]
  end.

Lemma sample_started a polls code o lines pending err :
  child_started a (Sample.world Sample.env_with_key polls code o lines pending err).
Proof. quiet_host. Qed.

Lemma sample_reported loads a env polls code o lines pending err :
  reported loads a (Sample.world env polls code o lines pending err).
Proof. quiet_host. Qed.

(** C1, as stated, fails on the runs that have no outcome at all: without
    credentials the resolver raises before anything else; and a success
    whose result is a number ends on the exception of the preview. *)
Lemma run_without_outcome :
  returned (run_subagent ref_loads Sample.plain Sample.w_no_key)
    = Raise (Exc ValueError missing_token_message) /\
  ~ every_run_has_outcome ref_loads Sample.plain Sample.w_no_key /\
  returned (run_subagent ref_loads Sample.plain Sample.w_five)
    = Raise (Exc TypeError "'int' object is not subscriptable") /\
  ~ every_run_has_outcome ref_loads Sample.plain Sample.w_five.
Proof.
  split; [vm_compute; reflexivity|]. split.
  { intros (r & Hr & _). vm_compute in Hr. discriminate. }
  split; [vm_compute; reflexivity|].
  intros (r & Hr & _). vm_compute in Hr. discriminate.
Qed.



(** C3: the timeout text is lost on two paths.  When the forced kill
    raises (the group is gone), the exception leaves the helper before the
    timeout text is set; when standard error does not decode, the
    exception of the read replaces the timeout text already set.  Either
    way the run reports the text of that exception. *)
Theorem timeout_text_overwritten :
  (child_started Sample.streaming Sample.w_slow_vanished /\
   timed_out (timeout Sample.streaming) (polls Sample.w_slow_vanished) = true /\
   (exists r,
      returned (run_subagent ref_loads Sample.streaming Sample.w_slow_vanished) = Ok r /\
      success r = false /\ error r = Some "[Errno 3] No such process") /\
   ~ timeout_always_reported ref_loads Sample.streaming Sample.w_slow_vanished) /\
  (child_started Sample.streaming Sample.w_slow_garbled /\
   timed_out (timeout Sample.streaming) (polls Sample.w_slow_garbled) = true /\
   termination_returns Sample.w_slow_garbled /\
   (exists r,
      returned (run_subagent ref_loads Sample.streaming Sample.w_slow_garbled) = Ok r /\
      success r = false /\
      error r = Some "'utf-8' codec can't decode byte 0xff in position 0: invalid start byte") /\
   ~ timeout_always_reported ref_loads Sample.streaming Sample.w_slow_garbled).
Proof.
  split.
  - split; [quiet_host|]. split; [reflexivity|]. split.
    + eexists. repeat split; vm_compute; reflexivity.
    + intros H. destruct H as (r & Hr & _ & He); [quiet_host | reflexivity |].
      vm_compute in Hr. injection Hr as <-. vm_compute in He. discriminate.
  - split; [quiet_host|]. split; [reflexivity|]. split; [reflexivity|]. split.
    + eexists. repeat split; vm_compute; reflexivity.
    + intros H. destruct H as (r & Hr & _ & He); [quiet_host | reflexivity |].
      vm_compute in Hr. injection Hr as <-. vm_compute in He. discriminate.
Qed.

(** ** The reader and the re-scan *)

Section ReaderFacts.

Variable loads : string -> loaded.

(** Without streaming the loop over the lines only copies: every line
    goes to the stdout log, nothing is interpreted. *)
Lemma read_stdout_plain rid lines st :
  read_stdout loads false rid lines st =
    ({| stdout_f := (stdout_f st ++ lines)%list; stream_f := stream_f st;
        final_result_event := final_result_event st;
        last_tool_name_printed := last_tool_name_printed st;
        console := console st |}, None).
Proof.
  revert st. induction lines as [|line rest IH]; intros st; cbn [read_stdout].
  - rewrite app_nil_r. by destruct st.
  - rewrite IH. cbn. by rewrite <- app_assoc.
Qed.

Lemma plain_stdout_text a w :
  stream_progress a = false ->
  concat_str (stdout_f (reader_of loads a w)) = captured_stdout w.
Proof.
  intros Hs. unfold reader_of, reader, captured_stdout. rewrite Hs, read_stdout_plain.
  destruct (stdout_fault w); [cbn; by rewrite app_nil_r|].
  destruct (pending_line w); cbn; by rewrite ?app_nil_r.
Qed.

(** One turn of the re-scan keeps the decoded line when it is a result
    event, and the previous value otherwise. *)
Lemma rescan_line_spec last_result ln :
  rescan_line loads last_result ln =
    match loads (strip ln) with
    | Loaded ev => if is_result_event ev then ev else last_result
    | _ => last_result
    end.
Proof.
  unfold rescan_line. destruct (loads (strip ln)) as [ev| |e]; try done.
  by destruct ev.
Qed.

Lemma fold_rescan lines acc :
  fold_left (rescan_line loads) lines acc =
    default acc (last (omap (fun ln =>
                               match loads (strip ln) with
                               | Loaded ev => if is_result_event ev then Some ev else None
                               | _ => None
                               end) lines)).
Proof.
  revert acc. induction lines as [|ln rest IH]; intros acc; [done|].
  cbn [fold_left omap list_omap]. rewrite IH, rescan_line_spec.
  destruct (loads (strip ln)) as [ev| |e]; try done.
  destruct (is_result_event ev); [|done].
  rewrite last_cons. by destruct (last _).
Qed.

(** The re-scan returns the last result event of the log, [None] when the
    log has none. *)
Lemma rescan_is_last_result_event log_text :
  rescan loads log_text = default PNone (last (result_events loads log_text)).
Proof. apply fold_rescan. Qed.

Lemma result_event_truthy ev : is_result_event ev = true -> Py.truthy ev = true.
Proof. destruct ev as [| | | | | |d]; try done. by destruct d. Qed.

Lemma result_events_all log_text ev :
  last (result_events loads log_text) = Some ev -> is_result_event ev = true.
Proof.
  intros Hl. apply last_Some_elem_of in Hl.
  unfold result_events in Hl. apply list_elem_of_omap in Hl as (ln & _ & Hev).
  destruct (loads (strip ln)) as [ev'| |e]; try done.
  destruct (is_result_event ev') eqn:E; by simplify_eq.
Qed.

End ReaderFacts.

(** ** Reconciliation on a clean exit, and the command line *)

Section ReconcileClaims.

Variable loads : string -> loaded.

Lemma previewable_or_else v : previewable v -> previewable (Py.or_else v (PStr EmptyString)).
Proof.
  unfold previewable, Py.or_else. intros Hv.
  destruct (Py.truthy v) eqn:E; [intros _; by apply Hv | done].
Qed.

(** A clean exit with a decoded object [ev] to take the result from. *)
Lemma returned_from_object a w ev :
  set_up a w ->
  reported loads a w ->
  reconciled loads a w =
    handle_exception (take_result ev (initial_result a w)).1
                     (take_result ev (initial_result a w)).2 ->
  previewable (field_or ev "result" (PStr EmptyString)) ->
  exists r,
    returned (run_subagent loads a w) = Ok r /\
    success r = true /\
    result r = Py.or_else (field_or ev "result" (PStr EmptyString)) (PStr EmptyString) /\
    session_id r = field_or ev "session_id" PNone.
Proof.
  intros Hset Hrep Hrec Hprev. rewrite (returned_after_set_up loads a w Hset Hrep), Hrec.
  rewrite take_result_spec.
  destruct ev as [| | | | | |d];
    try (cbn; eexists; by repeat split).
  cbn [fst snd handle_exception success set_session_id set_result set_success result].
  destruct (safe_truncate_previewable _ 200 (previewable_or_else _ Hprev)) as [text ->].
  eexists. by repeat split.
Qed.

(** C5, as amended: in a non-streaming run that exits with code zero
    before the deadline, whose standard error decodes and which gets to
    report, the text of the stdout log decides.  When it decodes as JSON
    and its [result] field is text or a false value, the run succeeds with
    that field when it is true-valued, the empty string when it is absent
    or false-valued, and with the [session_id] field.  When [json.loads]
    raises [JSONDecodeError], the run succeeds with the raw text as its
    result.  When [json.loads] raises another exception, the run fails
    with the text of that exception. *)
Theorem nonstreaming_result (a : Args) (w : World) :
  child_started a w ->
  stream_progress a = false ->
  timed_out (timeout a) (polls w) = false ->
  returncode w = 0 ->
  stderr_captured w ->
  reported loads a w ->
  match loads (captured_stdout w) with
  | Loaded output =>
      previewable (field_or output "result" (PStr EmptyString)) ->
      exists r,
        returned (run_subagent loads a w) = Ok r /\
        success r = true /\
        result r = Py.or_else (field_or output "result" (PStr EmptyString)) (PStr EmptyString) /\
        session_id r = field_or output "session_id" PNone
  | JSONDecodeError =>
      exists r,
        returned (run_subagent loads a w) = Ok r /\
        success r = true /\
        result r = PStr (captured_stdout w) /\
        session_id r = PNone /\ error r = None
  | LoadsRaised e =>
      exists r,
        returned (run_subagent loads a w) = Ok r /\
        success r = false /\
        result r = PStr EmptyString /\
        error r = Some (if is_file_not_found e then cli_not_found else str_exc e)
  end.
Proof.
  intros (Hset & Hp & Ho) Hs Ht Hcode [err_text Herr] Hrep.
  pose proof (reconciled_running loads a w Hp Ho Ht) as Hrec.
  rewrite Herr in Hrec. cbn zeta in Hrec.
  unfold reconcile in Hrec. cbn [error initial_result] in Hrec.
  rewrite Hcode, Hs in Hrec. cbn [Z.eqb] in Hrec.
  rewrite (plain_stdout_text loads a w Hs) in Hrec.
  destruct (loads (captured_stdout w)) as [output| |e].
  - intros Hprev. by eapply returned_from_object.
  - rewrite (returned_after_set_up loads a w Hset Hrep), Hrec. cbn.
    eexists. by repeat split.
  - rewrite (returned_after_set_up loads a w Hset Hrep), Hrec.
    cbn [fst snd]. rewrite handle_raised_text. cbn.
    eexists. by repeat split.
Qed.

(** C7, as amended: in a streaming run that exits with code zero before
    the deadline with no result event captured live, whose standard error
    decodes and which gets to report, the persisted stream log decides.
    When it has lines that decode to a result event, the last one wins: if
    its [result] payload is text or a false value, the run succeeds with
    that payload when it is true-valued, the empty string when it is
    absent or false-valued, and with its [session_id].  When it has none,
    the run succeeds with the placeholder naming the stream log. *)
Theorem rescan_result (a : Args) (w : World) :
  child_started a w ->
  stream_progress a = true ->
  timed_out (timeout a) (polls w) = false ->
  returncode w = 0 ->
  stderr_captured w ->
  reported loads a w ->
  Py.truthy (final_result_event (reader_of loads a w)) = false ->
  match last (result_events loads (stream_text_of loads a w)) with
  | Some ev =>
      previewable (field_or ev "result" (PStr EmptyString)) ->
      exists r,
        returned (run_subagent loads a w) = Ok r /\
        success r = true /\
        result r = Py.or_else (field_or ev "result" (PStr EmptyString)) (PStr EmptyString) /\
        session_id r = field_or ev "session_id" PNone
  | None =>
      exists r,
        returned (run_subagent loads a w) = Ok r /\
        success r = true /\
        result r = PStr (no_result_placeholder (Some (stream_log_path (new_run_id w)))) /\
        session_id r = PNone
  end.
Proof.
  intros (Hset & Hp & Ho) Hs Ht Hcode [err_text Herr] Hrep Hlive.
  pose proof (reconciled_running loads a w Hp Ho Ht) as Hrec.
  rewrite Herr in Hrec. cbn zeta in Hrec.
  unfold reconcile in Hrec. cbn [error initial_result artifacts stream_log] in Hrec.
  rewrite Hcode, Hs in Hrec. cbn [Z.eqb] in Hrec.
  rewrite Hlive in Hrec.
  fold (stream_text_of loads a w) in Hrec.
  rewrite rescan_is_last_result_event in Hrec.
  destruct (last (result_events loads (stream_text_of loads a w))) as [ev|] eqn:Hlast;
    rewrite ?Hlast in Hrec; cbn [default from_option id] in Hrec.
  - rewrite (result_event_truthy ev (result_events_all loads _ ev Hlast)) in Hrec.
    intros Hprev. by eapply returned_from_object.
  - rewrite (returned_after_set_up loads a w Hset Hrep), Hrec. cbn.
    eexists. by repeat split.
Qed.


(** When [Popen] raises, the run is a failure whose error is the
    installation hint for a missing program, else the exception text. *)
Lemma spawn_failure_reported a w e :
  popen w = Some e ->
  reconciled loads a w =
    set_error (if is_file_not_found e then cli_not_found else str_exc e) (initial_result a w).
Proof.
  intros Hp. unfold reconciled, try_body. rewrite Hp. cbn.
  by destruct (is_file_not_found e).
Qed.

End ReconcileClaims.

Lemma nonstreaming_result_witness :
  (exists r,
     returned (run_subagent ref_loads Sample.plain Sample.w_done) = Ok r /\
     success r = true /\ result r = PStr "done" /\ session_id r = PStr "abc") /\
  (exists r,
     returned (run_subagent ref_loads Sample.plain Sample.w_raw) = Ok r /\
     success r = true /\ result r = PStr ("all good" +:+ Sample.lf) /\
     session_id r = PNone /\ error r = None) /\
  (exists r,
     returned (run_subagent ref_loads Sample.plain Sample.w_long_int) = Ok r /\
     success r = false /\ result r = PStr EmptyString /\
     error r = Some (str_exc (RefJson.digits_error 4301))).
Proof.
  repeat split.
  - generalize (nonstreaming_result ref_loads Sample.plain Sample.w_done
                  ltac:(quiet_host) eq_refl eq_refl eq_refl
                  ltac:(by eexists) ltac:(quiet_host)).
    vm_compute. intros H. apply H. intros _. reflexivity.
  - generalize (nonstreaming_result ref_loads Sample.plain Sample.w_raw
                  ltac:(quiet_host) eq_refl eq_refl eq_refl
                  ltac:(by eexists) ltac:(quiet_host)).
    vm_compute. intros H. exact H.
  - generalize (nonstreaming_result ref_loads Sample.plain Sample.w_long_int
                  ltac:(quiet_host) eq_refl eq_refl eq_refl
                  ltac:(by eexists) ltac:(quiet_host)).
    vm_compute. intros H. exact H.
Defined.

(** C5, as stated, fails on a [result] field that is present and false:
    the number 0 comes out as the empty string. *)
Lemma zero_result_not_passed_through :
  ref_loads (captured_stdout Sample.w_zero) = Loaded (PDict [("result", PInt 0)]) /\
  (exists r, returned (run_subagent ref_loads Sample.plain Sample.w_zero) = Ok r /\
             result r = PStr EmptyString) /\
  ~ nonstreaming_passes_field ref_loads Sample.plain Sample.w_zero.
Proof.
  split; [vm_compute; reflexivity|]. split.
  - eexists. split; vm_compute; reflexivity.
  - intros H.
    destruct H as (r & Hr & _ & Hm);
      [quiet_host | reflexivity | reflexivity | reflexivity |].
    vm_compute in Hr. injection Hr as <-. vm_compute in Hm.
    destruct Hm as [Hm _]. discriminate.
Qed.

Lemma rescan_result_witness :
  (exists r,
     returned (run_subagent ref_loads Sample.streaming Sample.w_lagging) = Ok r /\
     success r = true /\ result r = PStr "ok" /\ session_id r = PStr "s1") /\
  (exists r,
     returned (run_subagent ref_loads Sample.streaming Sample.w_no_result) = Ok r /\
     success r = true /\
     result r = PStr "(no result event; see /tmp/glm-native-subagent/run_0123456789.stream.jsonl)" /\
     session_id r = PNone).
Proof.
  split.
  - generalize (rescan_result ref_loads Sample.streaming Sample.w_lagging
                  ltac:(quiet_host) eq_refl eq_refl eq_refl
                  ltac:(by eexists) ltac:(quiet_host) ltac:(vm_compute; reflexivity)).
    vm_compute. intros H. apply H. intros _. reflexivity.
  - generalize (rescan_result ref_loads Sample.streaming Sample.w_no_result
                  ltac:(quiet_host) eq_refl eq_refl eq_refl
                  ltac:(by eexists) ltac:(quiet_host) ltac:(vm_compute; reflexivity)).
    vm_compute. intros H. exact H.
Defined.

(** C7, as stated, fails on a payload that is present and false: the
    number 0 recovered from the log comes out as the empty string. *)
Lemma zero_payload_not_passed_through :
  last (result_events ref_loads
          (stream_text_of ref_loads Sample.streaming Sample.w_lagging_zero))
    = Some (PDict [("type", PStr "result"); ("result", PInt 0)]) /\
  (exists r, returned (run_subagent ref_loads Sample.streaming Sample.w_lagging_zero) = Ok r /\
             result r = PStr EmptyString) /\
  ~ rescan_passes_payload ref_loads Sample.streaming Sample.w_lagging_zero.
Proof.
  split; [vm_compute; reflexivity|]. split.
  - eexists. split; vm_compute; reflexivity.
  - intros H.
    destruct H as (r & Hr & _ & Hm);
      [quiet_host | reflexivity | reflexivity | reflexivity | vm_compute; reflexivity |].
    vm_compute in Hr. injection Hr as <-. vm_compute in Hm.
    destruct Hm as [Hm _]. specialize (Hm _ (PInt 0) eq_refl eq_refl). discriminate.
Qed.



(** ** The drain *)

Section DrainClaims.

Variable loads : string -> loaded.

(** Interpreting never touches the logs. *)
Lemma tool_use_block_logs rid st block :
  stdout_f (tool_use_block rid st block) = stdout_f st /\
  stream_f (tool_use_block rid st block) = stream_f st.
Proof. unfold tool_use_block. by repeat case_match. Qed.

Lemma tool_use_blocks_logs rid blocks st :
  stdout_f (fold_left (tool_use_block rid) blocks st) = stdout_f st /\
  stream_f (fold_left (tool_use_block rid) blocks st) = stream_f st.
Proof.
  revert st. induction blocks as [|b bs IH]; intros st; [done|].
  cbn [fold_left]. destruct (IH (tool_use_block rid st b)) as [-> ->].
  apply tool_use_block_logs.
Qed.

Lemma interpret_line_logs rid st line st' :
  interpret_line loads rid st line = Ok st' ->
  stdout_f st' = stdout_f st /\ stream_f st' = stream_f st.
Proof.
  unfold interpret_line, bind. intros H.
  repeat case_match; simplify_eq/=; try done.
  apply tool_use_blocks_logs.
Qed.

(** The logs only grow. *)
Lemma read_stdout_grows rid lines st :
  exists out stream,
    stdout_f (read_stdout loads true rid lines st).1 = (stdout_f st ++ out)%list /\
    stream_f (read_stdout loads true rid lines st).1 = (stream_f st ++ stream)%list.
Proof.
  revert st. induction lines as [|l ls IH]; intros st; cbn [read_stdout].
  - exists [], []. by rewrite !app_nil_r.
  - destruct (interpret_line loads rid (log_line true st l) l) as [st'|e] eqn:E.
    + destruct (IH st') as (o & s' & -> & ->).
      destruct (interpret_line_logs _ _ _ _ E) as [-> ->].
      exists (l :: o), (l :: s'). cbn. by rewrite <- !app_assoc.
    + by exists [l], [l].
Qed.

(** A line is in both logs before anything is made of it, whatever it
    is and whatever follows. *)
Lemma line_logged_first rid line rest st :
  exists out stream,
    stdout_f (read_stdout loads true rid (line :: rest) st).1
      = (stdout_f st ++ line :: out)%list /\
    stream_f (read_stdout loads true rid (line :: rest) st).1
      = (stream_f st ++ line :: stream)%list.
Proof.
  cbn [read_stdout].
  destruct (interpret_line loads rid (log_line true st line) line) as [st'|e] eqn:E.
  - destruct (read_stdout_grows rid rest st') as (o & s' & -> & ->).
    destruct (interpret_line_logs _ _ _ _ E) as [-> ->].
    exists o, s'. cbn. by rewrite <- !app_assoc.
  - by exists [], [].
Qed.

(** A line that does not decode is skipped: the reader goes on with the
    next line, its variables unchanged. *)
Lemma undecodable_line_skipped rid line rest st :
  loads (strip line) = JSONDecodeError ->
  read_stdout loads true rid (line :: rest) st
    = read_stdout loads true rid rest (log_line true st line).
Proof.
  intros Hdec. cbn [read_stdout]. unfold interpret_line. rewrite Hdec.
  by destruct (negb (nonempty (strip line))).
Qed.

(** A line that decodes to anything but an object ends the reader: the
    lines after it are neither logged nor interpreted. *)
Lemma non_object_line_ends_reader rid line rest st o :
  loads (strip line) = Loaded o ->
  nonempty (strip line) = true ->
  (forall d, o <> PDict d) ->
  read_stdout loads true rid (line :: rest) st
    = (log_line true st line, Some (Py.no_attribute o "get")).
Proof.
  intros Hdec Hne Hobj. cbn [read_stdout]. unfold interpret_line.
  rewrite Hdec, Hne. cbn. destruct o; try done. by destruct (Hobj d).
Qed.

(** The blocks of an [assistant] event whose content is a list go through
    [tool_use_block] in order. *)
Lemma assistant_event_blocks rid line st event message blocks :
  nonempty (strip line) = true ->
  loads (strip line) = Loaded (PDict event) ->
  Py.dict_get event "type" = Some (PStr "assistant") ->
  Py.dict_get event "message" = Some (PDict message) ->
  Py.dict_get message "content" = Some (PList blocks) ->
  interpret_line loads rid st line = Ok (fold_left (tool_use_block rid) blocks st).
Proof.
  intros Hne Hdec Htype Hmsg Hcontent. unfold interpret_line.
  rewrite Hne, Hdec. cbn. rewrite Htype. cbn. rewrite Hmsg. cbn. by rewrite Hcontent.
Qed.

End DrainClaims.

Section ToolNotifications.

Variable rid : string.




End ToolNotifications.


(** C6 fails on a line that is JSON but not an object: the reader thread
    ends on the attribute error at the array line, and the result line
    after it reaches neither the logs nor [final_result_event]. *)
Theorem drain_aborted_by_array_line :
  ref_loads (strip Sample.array_line) = Loaded (PList [PInt 1]) /\
  read_stdout ref_loads true "0123456789" [Sample.array_line; Sample.ok_line] drain_start
    = ({| stdout_f := [Sample.array_line]; stream_f := [Sample.array_line];
          final_result_event := PNone; last_tool_name_printed := PNone; console := [] |},
       Some (Exc AttributeError "'list' object has no attribute 'get'")).
Proof. split; reflexivity. Qed.

(** The drain alone, on the same two lines in the other order, reads both. *)
Lemma drain_reads_result_then_array :
  (read_stdout ref_loads true "0123456789" [Sample.ok_line] drain_start).2 = None /\
  stdout_f (read_stdout ref_loads true "0123456789" [Sample.ok_line; Sample.array_line]
              drain_start).1 = [Sample.ok_line; Sample.array_line].
Proof. split; reflexivity. Qed.

(** ** Default timeouts *)

(** C10: a direct call that leaves [timeout] out runs with 600 seconds,
    the command line without [--timeout] passes 120 seconds, and a direct
    call never gets 120 seconds unless the caller passes them. *)
Theorem default_timeouts_differ (task : string) (kw : Kwargs) (f : Flags) :
  kw_timeout kw = None ->
  flag_timeout f = None ->
  timeout (bind_arguments task kw) = 600 /\
  timeout (parse_args f) = 120 /\
  timeout (bind_arguments task kw) <> timeout (parse_args f) /\
  (forall loads w, call_run_subagent loads task kw w
                   = run_subagent loads (bind_arguments task kw) w) /\
  (forall task' kw', timeout (bind_arguments task' kw') = 120 -> kw_timeout kw' = Some 120).
Proof.
  intros Hkw Hflag.
  assert (Hdirect : timeout (bind_arguments task kw) = 600) by (cbn; by rewrite Hkw).
  assert (Hcli : timeout (parse_args f) = 120) by (cbn; by rewrite Hflag).
  split; [exact Hdirect|]. split; [exact Hcli|]. split; [by rewrite Hdirect, Hcli|].
  split; [reflexivity|].
  intros task' kw'. cbn. destruct (kw_timeout kw') as [t|]; cbn; [by intros -> | done].
Qed.

Lemma default_timeouts_differ_witness :
  timeout (bind_arguments "list files" Sample.no_kwargs) = 600 /\
  timeout (parse_args (Sample.flags false None)) = 120 /\
  timeout (bind_arguments "list files" Sample.no_kwargs)
    <> timeout (parse_args (Sample.flags false None)) /\
  (forall loads w, call_run_subagent loads "list files" Sample.no_kwargs w
                   = run_subagent loads (bind_arguments "list files" Sample.no_kwargs) w) /\
  (forall task' kw', timeout (bind_arguments task' kw') = 120 -> kw_timeout kw' = Some 120).
Proof.
  apply (default_timeouts_differ "list files" Sample.no_kwargs (Sample.flags false None));
    reflexivity.
Defined.

(** A child that runs for five minutes and exits with code 0: the direct
    call with default arguments succeeds, the command line with default
    options reports a timeout. *)
Lemma five_minute_child_direct_and_cli :
  (exists r, returned (call_run_subagent ref_loads "list files" Sample.no_kwargs
                         Sample.w_five_minutes) = Ok r /\
             success r = true /\ result r = PStr "done") /\
  (exists r, returned (run_subagent ref_loads (parse_args (Sample.flags false None))
                         Sample.w_five_minutes) = Ok r /\
             success r = false /\ error r = Some "Timeout after 120s").
Proof. split; eexists; repeat split; vm_compute; reflexivity. Qed.

(** ** Scenarios of the specification *)

Lemma scenario_list_files :
  exists r, returned (run_subagent ref_loads Sample.plain Sample.w_done) = Ok r /\
            success r = true /\ result r = PStr "done" /\ session_id r = PStr "abc".
Proof. eexists. repeat split; vm_compute; reflexivity. Qed.

Lemma scenario_permission_denied :
  exists r, returned (run_subagent ref_loads Sample.plain Sample.w_denied) = Ok r /\
            success r = false /\ error r = Some "permission denied".
Proof. eexists. repeat split; vm_compute; reflexivity. Qed.

Lemma scenario_no_result_event :
  exists r, returned (run_subagent ref_loads Sample.streaming Sample.w_no_result) = Ok r /\
            success r = true /\
            result r = PStr "(no result event; see /tmp/glm-native-subagent/run_0123456789.stream.jsonl)".
Proof. eexists. repeat split; vm_compute; reflexivity. Qed.

(** The array line of C6 in a whole run: the result event the child
    printed after it is lost, and the run reports the placeholder. *)
Lemma scenario_array_line_hides_result :
  exists r,
    returned (run_subagent ref_loads Sample.streaming
                (Sample.world Sample.env_with_key [0.1%Q] 0 Sample.calm
                   [Sample.array_line; Sample.ok_line] None EmptyString)) = Ok r /\
    success r = true /\
    result r = PStr "(no result event; see /tmp/glm-native-subagent/run_0123456789.stream.jsonl)".
Proof. eexists. repeat split; vm_compute; reflexivity. Qed.

Lemma scenario_two_reads_then_result :
  printed (run_subagent ref_loads Sample.streaming
             (Sample.world Sample.env_with_key [0.1%Q] 0 Sample.calm
                [Sample.read_line; Sample.read_line; Sample.ok_line] None EmptyString))
  = [Starting "0123456789" "/home/dev/project"; TaskPreview "list files";
     ToolNote "0123456789" (PStr "Read"); CompleteNote "0123456789";
     SuccessLine "0123456789"; ResultPreview "ok";
     LogsLine "/tmp/glm-native-subagent/run_0123456789.stream.jsonl"].
Proof. vm_compute. reflexivity. Qed.

(** ** Runs that return no dictionary *)

Section NoOutcome.

Variable loads : string -> loaded.

(** The resolver raises exactly when neither token variable holds a
    non-empty value. *)
Lemma build_env_raises environ :
  falsy (get_or environ "ANTHROPIC_AUTH_TOKEN" "ZAI_API_KEY") = true <->
  _build_env environ = Raise (Exc ValueError missing_token_message).
Proof.
  unfold _build_env. destruct (falsy _); split; intros H; done.
Qed.

(** Without credentials [main] prints nothing and ends on the exception
    of the resolver, whatever the flags and the rest of the world. *)
Lemma main_without_credentials f w :
  falsy (get_or (environ w) "ANTHROPIC_AUTH_TOKEN" "ZAI_API_KEY") = true ->
  main loads f w = {| main_printed := [];
                      ended := Uncaught (Exc ValueError missing_token_message) |}.
Proof.
  intros Hno. apply build_env_raises in Hno.
  unfold main, run_subagent. by rewrite Hno.
Qed.

(** When the artefact directory cannot be made, nothing is printed and no
    dictionary is returned, whatever the child would have done. *)
Lemma main_without_artifact_directory f w env cwd e :
  _build_env (environ w) = Ok env ->
  run_cwd (parse_args f) w = Ok cwd ->
  makedirs w = Some e ->
  main loads f w = {| main_printed := []; ended := Uncaught e |}.
Proof.
  intros Henv Hcwd Hmk. unfold main, run_subagent. by rewrite Henv, Hcwd, Hmk.
Qed.

(** When the termination helper lets an exception through, the run fails
    with the text of that exception (the installation hint for a
    [FileNotFoundError]). *)
Lemma termination_failure_reported a w evs e :
  popen w = None -> open_logs w = None ->
  timed_out (timeout a) (polls w) = true ->
  _kill_process_group (kill_oracle w) default_grace_seconds = (evs, Some e) ->
  reconciled loads a w =
    set_error (if is_file_not_found e then cli_not_found else str_exc e) (initial_result a w).
Proof.
  intros Hp Ho Ht Hkill. unfold reconciled, try_body, wait_loop.
  rewrite Hp, Ho, Ht, Hkill. cbn.
  by destruct (is_file_not_found e).
Qed.

End NoOutcome.

(** A [result] field that is a number other than 0: the run is a success
    up to the summary, whose preview raises outside the [try]. *)
Lemma scenario_number_result :
  returned (run_subagent ref_loads Sample.plain Sample.w_five)
    = Raise (Exc TypeError "'int' object is not subscriptable") /\
  success (reconciled ref_loads Sample.plain Sample.w_five) = true /\
  result (reconciled ref_loads Sample.plain Sample.w_five) = PInt 5.
Proof. repeat split; vm_compute; reflexivity. Qed.

(** ** The resolved environment *)

Section Resolver.

Implicit Types environ env : gmap string string.

Lemma get_or_spec environ a b :
  get_or environ a b =
    match environ !! a with
    | Some v => if nonempty v then Some v else environ !! b
    | None => environ !! b
    end.
Proof. reflexivity. Qed.

(** Every lookup in the resolved environment, in terms of the ambient one. *)
Lemma build_env_lookup environ env :
  _build_env environ = Ok env ->
  exists token base,
    get_or environ "ANTHROPIC_AUTH_TOKEN" "ZAI_API_KEY" = Some token /\
    nonempty token = true /\
    base = (if falsy (get_or environ "ANTHROPIC_BASE_URL" "ZAI_BASE_URL")
            then DEFAULT_BASE_URL
            else default EmptyString (get_or environ "ANTHROPIC_BASE_URL" "ZAI_BASE_URL")) /\
    nonempty base = true /\
    env !! "ANTHROPIC_AUTH_TOKEN" = Some token /\
    env !! "ANTHROPIC_BASE_URL" = Some base /\
    env !! "API_TIMEOUT_MS"
      = Some (default DEFAULT_API_TIMEOUT_MS (environ !! "API_TIMEOUT_MS")) /\
    (forall k, k <> "ANTHROPIC_AUTH_TOKEN" -> k <> "ANTHROPIC_BASE_URL" ->
               k <> "API_TIMEOUT_MS" -> env !! k = environ !! k).
Proof.
  unfold _build_env.
  destruct (get_or environ "ANTHROPIC_AUTH_TOKEN" "ZAI_API_KEY") as [token|] eqn:Htok;
    [|done].
  cbn [falsy default from_option id].
  destruct (nonempty token) eqn:Hne; [|done]. cbn [negb].
  assert (Hbase : get_or (<["ANTHROPIC_AUTH_TOKEN":=token]> environ)
                    "ANTHROPIC_BASE_URL" "ZAI_BASE_URL"
                  = get_or environ "ANTHROPIC_BASE_URL" "ZAI_BASE_URL").
  { rewrite !get_or_spec. by rewrite !lookup_insert_ne. }
  rewrite Hbase.
  set (base := if falsy _ then _ else _).
  assert (Hbne : nonempty base = true).
  { subst base. destruct (get_or environ "ANTHROPIC_BASE_URL" "ZAI_BASE_URL") as [u|];
      cbn; [by destruct (nonempty u) eqn:E | done]. }
  assert (Hto : (<["ANTHROPIC_BASE_URL":=base]> (<["ANTHROPIC_AUTH_TOKEN":=token]> environ))
                  !! "API_TIMEOUT_MS" = environ !! "API_TIMEOUT_MS").
  { by rewrite !lookup_insert_ne. }
  rewrite Hto. intros Henv. exists token, base.
  repeat split; try done.
  - destruct (environ !! "API_TIMEOUT_MS"); simplify_eq; by simplify_map_eq.
  - destruct (environ !! "API_TIMEOUT_MS"); simplify_eq; by simplify_map_eq.
  - destruct (environ !! "API_TIMEOUT_MS") eqn:E; simplify_eq; cbn; by simplify_map_eq.
  - intros k H1 H2 H3.
    destruct (environ !! "API_TIMEOUT_MS"); simplify_eq; by simplify_map_eq.
Qed.

(** [a or b] on two variables finds a value exactly when one of them is
    set to a non-empty text. *)
Lemma get_or_some environ a b :
  falsy (get_or environ a b) = false <->
  exists t, nonempty t = true /\ (environ !! a = Some t \/ environ !! b = Some t).
Proof.
  unfold get_or, falsy. split.
  - destruct (environ !! a) as [va|] eqn:Ea.
    + destruct (nonempty va) eqn:Eva.
      * intros _. exists va. eauto.
      * destruct (environ !! b) as [vb|]; [|done].
        intros Hb%negb_false_iff. exists vb. eauto.
    + destruct (environ !! b) as [vb|]; [|done].
      intros Hb%negb_false_iff. exists vb. eauto.
  - intros (t & Ht & [Hta|Htb]).
    + by rewrite Hta, Ht; cbn; rewrite Ht.
    + destruct (environ !! a) as [va|].
      * destruct (nonempty va) eqn:Eva; [by rewrite Eva | by rewrite Htb, Ht].
      * by rewrite Htb, Ht.
Qed.

(** X1: the resolver returns an environment exactly when one of the two
    token variables is set to a non-empty text; a variable set to the
    empty string counts as unset. *)
Theorem build_env_needs_token environ :
  (exists env, _build_env environ = Ok env) <->
  (exists t, nonempty t = true /\
             (environ !! "ANTHROPIC_AUTH_TOKEN" = Some t \/ environ !! "ZAI_API_KEY" = Some t)).
Proof.
  rewrite <- get_or_some. unfold _build_env.
  destruct (falsy (get_or environ "ANTHROPIC_AUTH_TOKEN" "ZAI_API_KEY")).
  - split; [by intros [env ?] | done].
  - split; [done | intros _; by eexists].
Qed.

(** X2: the resolved environment exports the token under
    [ANTHROPIC_AUTH_TOKEN]: the ambient value of that variable when it is
    non-empty, else the value of [ZAI_API_KEY]; it is never empty. *)
Theorem resolved_token_precedence environ env :
  _build_env environ = Ok env ->
  exists token,
    env !! "ANTHROPIC_AUTH_TOKEN" = Some token /\ nonempty token = true /\
    (forall a, environ !! "ANTHROPIC_AUTH_TOKEN" = Some a -> nonempty a = true -> token = a) /\
    (falsy (environ !! "ANTHROPIC_AUTH_TOKEN") = true ->
     environ !! "ZAI_API_KEY" = Some token).
Proof.
  intros (token & base & Htok & Hne & _ & _ & Hlook & _)%build_env_lookup.
  exists token. split; [done|]. split; [done|].
  rewrite get_or_spec in Htok. split.
  - intros a Ha Hane. rewrite Ha, Hane in Htok. by simplify_eq.
  - unfold falsy. destruct (environ !! "ANTHROPIC_AUTH_TOKEN") as [a|]; [|done].
    intros Ha%negb_true_iff. by rewrite Ha in Htok.
Qed.

(** X3: the resolved environment always has a non-empty
    [ANTHROPIC_BASE_URL]: the ambient one when non-empty, else a non-empty
    [ZAI_BASE_URL], else the built-in endpoint. *)
Theorem resolved_base_url environ env :
  _build_env environ = Ok env ->
  exists base,
    env !! "ANTHROPIC_BASE_URL" = Some base /\ nonempty base = true /\
    (forall a, environ !! "ANTHROPIC_BASE_URL" = Some a -> nonempty a = true -> base = a) /\
    (falsy (environ !! "ANTHROPIC_BASE_URL") = true ->
     (forall z, environ !! "ZAI_BASE_URL" = Some z -> nonempty z = true -> base = z) /\
     (falsy (environ !! "ZAI_BASE_URL") = true -> base = DEFAULT_BASE_URL)).
Proof.
  intros (token & base & _ & _ & Hbase & Hne & _ & Hlook & _)%build_env_lookup.
  exists base. split; [done|]. split; [done|].
  rewrite get_or_spec in Hbase. split.
  - intros a Ha Hane. rewrite Ha, Hane in Hbase. cbn in Hbase. by rewrite Hane in Hbase.
  - unfold falsy at 1. intros Ha.
    assert (Hget : match environ !! "ANTHROPIC_BASE_URL" with
                   | Some v => if nonempty v then Some v else environ !! "ZAI_BASE_URL"
                   | None => environ !! "ZAI_BASE_URL"
                   end = environ !! "ZAI_BASE_URL").
    { destruct (environ !! "ANTHROPIC_BASE_URL") as [a|]; [|done].
      apply negb_true_iff in Ha. by rewrite Ha. }
    rewrite Hget in Hbase. split.
    + intros z Hz Hzne. rewrite Hz in Hbase. cbn in Hbase. by rewrite Hzne in Hbase.
    + intros Hz. destruct (environ !! "ZAI_BASE_URL") as [z|]; cbn in Hz, Hbase; [|done].
      by rewrite Hz in Hbase.
Qed.

(** X4: the request timeout is a non-destructive default, and nothing
    else is touched: a caller's [API_TIMEOUT_MS] is kept as it is (even
    empty), an absent one becomes 300000, and every variable other than the
    three the resolver sets keeps its ambient value or absence. *)
Theorem resolver_keeps_the_rest environ env :
  _build_env environ = Ok env ->
  (forall v, environ !! "API_TIMEOUT_MS" = Some v -> env !! "API_TIMEOUT_MS" = Some v) /\
  (environ !! "API_TIMEOUT_MS" = None -> env !! "API_TIMEOUT_MS" = Some "300000") /\
  (forall k, k <> "ANTHROPIC_AUTH_TOKEN" -> k <> "ANTHROPIC_BASE_URL" ->
             k <> "API_TIMEOUT_MS" -> env !! k = environ !! k).
Proof.
  intros (token & base & _ & _ & _ & _ & _ & _ & Hto & Hrest)%build_env_lookup.
  repeat split; [| |done].
  - intros v Hv. by rewrite Hto, Hv.
  - intros Hv. by rewrite Hto, Hv.
Qed.

(** X5: resolving an already resolved environment changes nothing. *)
Theorem build_env_idempotent environ env :
  _build_env environ = Ok env -> _build_env env = Ok env.
Proof.
  intros (token & base & _ & Hne & _ & Hbne & Htok & Hbase & Hto & _)%build_env_lookup.
  unfold _build_env.
  rewrite (get_or_spec env "ANTHROPIC_AUTH_TOKEN"), Htok, Hne.
  cbn [falsy default from_option id]. rewrite Hne. cbn [negb].
  rewrite (insert_id env "ANTHROPIC_AUTH_TOKEN" token Htok).
  rewrite (get_or_spec env "ANTHROPIC_BASE_URL"), Hbase, Hbne.
  cbn [falsy default from_option id]. rewrite Hbne. cbn [negb].
  rewrite (insert_id env "ANTHROPIC_BASE_URL" base Hbase).
  by rewrite Hto.
Qed.

End Resolver.

Lemma demo_resolves : exists env, _build_env Demo.both_keys = Ok env.
Proof. apply build_env_returns. vm_compute. reflexivity. Qed.

Lemma demo_resolves_secondary : exists env, _build_env Demo.empty_primary = Ok env.
Proof. apply build_env_returns. vm_compute. reflexivity. Qed.

Lemma resolved_token_precedence_witness :
  exists env token,
    _build_env Demo.both_keys = Ok env /\
    env !! "ANTHROPIC_AUTH_TOKEN" = Some token /\ token = "primary".
Proof.
  destruct demo_resolves as [env Henv].
  destruct (resolved_token_precedence Demo.both_keys env Henv) as (token & Ht & _ & Hfirst & _).
  exists env, token. split; [exact Henv|]. split; [exact Ht|].
  apply Hfirst; reflexivity.
Defined.

Lemma resolved_base_url_witness :
  exists env base,
    _build_env Demo.both_keys = Ok env /\
    env !! "ANTHROPIC_BASE_URL" = Some base /\ base = "https://example.test/api".
Proof.
  destruct demo_resolves as [env Henv].
  destruct (resolved_base_url Demo.both_keys env Henv) as (base & Hb & _ & _ & Hsecond).
  exists env, base. split; [exact Henv|]. split; [exact Hb|].
  destruct Hsecond as [Hz _]; [reflexivity|]. apply Hz; reflexivity.
Defined.

Lemma resolver_keeps_the_rest_witness :
  exists env,
    _build_env Demo.both_keys = Ok env /\
    env !! "API_TIMEOUT_MS" = Some "300000" /\
    env !! "PATH" = Some "/usr/bin" /\
    env !! "ZAI_API_KEY" = Some "secondary".
Proof.
  destruct demo_resolves as [env Henv].
  destruct (resolver_keeps_the_rest Demo.both_keys env Henv) as (_ & Hdefault & Hrest).
  exists env. split; [exact Henv|]. repeat split.
  - apply Hdefault. reflexivity.
  - rewrite Hrest; [reflexivity | discriminate | discriminate | discriminate].
  - rewrite Hrest; [reflexivity | discriminate | discriminate | discriminate].
Defined.

Lemma build_env_idempotent_witness :
  exists env, _build_env Demo.empty_primary = Ok env /\ _build_env env = Ok env.
Proof.
  destruct demo_resolves_secondary as [env Henv].
  exists env. split; [exact Henv|].
  exact (build_env_idempotent Demo.empty_primary env Henv).
Defined.

(** ** Previews *)

Section Previews.

Lemma length_app_str a b : String.length (a +:+ b) = (String.length a + String.length b)%nat.
Proof. induction a as [|c a IH]; [done|]. cbn. by rewrite <- IH. Qed.

Lemma append_empty_r t : t +:+ EmptyString = t.
Proof.
  induction t as [|a t IH]; [done|].
  change (String a t +:+ EmptyString) with (String a (t +:+ EmptyString)).
  by rewrite IH.
Qed.

Lemma length_take_str n s : String.length (take_str n s) = Nat.min n (String.length s).
Proof.
  revert s. induction n as [|n IH]; intros [|c s]; cbn; try done. by rewrite IH.
Qed.

Lemma take_str_all n s : (String.length s <= n)%nat -> take_str n s = s.
Proof.
  revert s. induction n as [|n IH]; intros [|c s]; cbn; try done; [lia|].
  intros Hlen. rewrite IH; [done | lia].
Qed.

Lemma length_truncate s n : (String.length (truncate s n) <= n + 3)%nat.
Proof.
  unfold truncate. rewrite length_app_str, length_take_str.
  destruct (n <? String.length s)%nat; cbn; lia.
Qed.

(** X6: on text [_safe_truncate] never raises; the preview is the text
    itself when it has at most [n] characters, else its first [n]
    characters followed by three dots, so never more than [n + 3]
    characters. *)
Theorem safe_truncate_text (s : string) (n : nat) :
  exists text,
    _safe_truncate (PStr s) n = Ok text /\
    (String.length text <= n + 3)%nat /\
    ((String.length s <= n)%nat -> text = s) /\
    ((n < String.length s)%nat -> text = take_str n s +:+ "...").
Proof.
  cbn [_safe_truncate]. eexists. split; [reflexivity|].
  destruct s as [|c s]; cbn [nonempty negb].
  - split; [cbn; lia|]. split; [done|]. cbn. lia.
  - split; [apply length_truncate|]. unfold truncate. split.
    + intros Hlen. rewrite take_str_all by done.
      apply Nat.ltb_ge in Hlen. rewrite Hlen. apply append_empty_r.
    + intros Hlen. apply Nat.ltb_lt in Hlen. by rewrite Hlen.
Qed.

(** X7: [_safe_truncate] returns exactly on text and on false values, for
    which the preview is empty; on every other value (a non-zero number,
    [True], a non-empty list or dictionary) it raises a [TypeError]. *)
Theorem safe_truncate_returns_iff (o : pyobj) (n : nat) :
  ((exists text, _safe_truncate o n = Ok text) <-> previewable o) /\
  (Py.truthy o = false -> _safe_truncate o n = Ok EmptyString) /\
  (forall e, _safe_truncate o n = Raise e -> exc_kind_of e = TypeError).
Proof.
  split; [split|split].
  - intros [text Hok] Htrue. unfold _safe_truncate in Hok.
    destruct o; try done; by rewrite Htrue in Hok.
  - apply safe_truncate_previewable.
  - intros Hfalse. unfold _safe_truncate.
    destruct o; try (by rewrite Hfalse). cbn in Hfalse. by rewrite Hfalse.
  - apply safe_truncate_raises.
Qed.

End Previews.

(** ** The termination helper and the wait loop *)

Section Supervisor.

(** X8: [_kill_process_group] lets an exception through in one case only:
    the graceful signal went out, the grace wait expired, and the forced
    kill of the group raised; every other failure is swallowed. *)
Theorem kill_helper_raises_only_from_forced_kill (o : KillOracle) (grace : Z) (e : pyexc) :
  (_kill_process_group o grace).2 = Some e <->
  term_group o = None /\ wait_grace o = Expired /\ kill_group o = Some e.
Proof.
  unfold _kill_process_group, kill_try.
  destruct (term_group o), (wait_grace o), (kill_group o), (child_kill o); cbn;
    split; try done; try (by intros (? & ? & ?)); try (by intros [= ->]).
  all: by intros (_ & _ & [= ->]).
Qed.

(** X9: the helper is bounded: it waits at most the grace period plus two
    seconds in all, causes at most four events, and sends at most one
    forced kill (never one to the group and one to the child). *)
Theorem kill_helper_is_bounded (o : KillOracle) (grace : Z) :
  0 <= grace ->
  waited_seconds (_kill_process_group o grace).1 <= grace + 2 /\
  (length (_kill_process_group o grace).1 <= 4)%nat /\
  (forced_kills (_kill_process_group o grace).1 <= 1)%nat.
Proof.
  intros Hgrace.
  destruct (escalation_traces o grace) as [E|[E|[E|[E|[[b E]|(tail & E & Ht)]]]]];
    cbn zeta in E; rewrite E; clear E.
  1-5: cbn; repeat split; lia.
  destruct Ht as [->|[b ->]]; cbn; repeat split; lia.
Qed.

Lemma timeout_exceeded_iff elapsed timeout :
  timeout_exceeded elapsed timeout = true <-> (inject_Z timeout < elapsed)%Q.
Proof.
  unfold timeout_exceeded. rewrite negb_true_iff. split.
  - intros Hle. apply Qnot_le_lt. intros Hc. apply Qle_bool_iff in Hc. congruence.
  - intros Hlt. destruct (Qle_bool elapsed (inject_Z timeout)) eqn:E; [|done].
    apply Qle_bool_iff in E. by apply Qlt_not_le in Hlt.
Qed.

(** X10: the wait loop reports a timeout exactly when some turn that found
    the child alive read an elapsed time strictly greater than the timeout;
    an elapsed time equal to the timeout does not count. *)
Theorem timed_out_iff (timeout : Z) (polls : list Q) :
  timed_out timeout polls = true <-> Exists (fun elapsed => (inject_Z timeout < elapsed)%Q) polls.
Proof.
  induction polls as [|elapsed rest IH]; cbn [timed_out].
  - split; [done | by intros ?%Exists_nil].
  - rewrite Exists_cons, <- IH, <- timeout_exceeded_iff.
    destruct (timeout_exceeded elapsed timeout); [by split; [left|] |].
    split; [by right | by intros [?|?]].
Qed.

(** X11: a shorter timeout never lets through a run that a longer one
    stops. *)
Theorem timed_out_antitone (shorter longer : Z) (polls : list Q) :
  shorter <= longer ->
  timed_out longer polls = true ->
  timed_out shorter polls = true.
Proof.
  intros Hle. induction polls as [|elapsed rest IH]; [done|]. cbn [timed_out].
  destruct (timeout_exceeded elapsed longer) eqn:Hlonger.
  - intros _. apply timeout_exceeded_iff in Hlonger.
    assert (timeout_exceeded elapsed shorter = true) as ->; [|done].
    apply timeout_exceeded_iff. eapply Qle_lt_trans; [|exact Hlonger].
    by rewrite <- Zle_Qle.
  - intros Hrest. rewrite (IH Hrest). by destruct (timeout_exceeded elapsed shorter).
Qed.

End Supervisor.

Lemma kill_helper_is_bounded_witness :
  waited_seconds (_kill_process_group Sample.stubborn 5).1 <= 5 + 2 /\
  (length (_kill_process_group Sample.stubborn 5).1 <= 4)%nat /\
  (forced_kills (_kill_process_group Sample.stubborn 5).1 <= 1)%nat.
Proof. apply (kill_helper_is_bounded Sample.stubborn 5). lia. Defined.

Lemma timed_out_antitone_witness :
  timed_out 120 [0.1%Q; 300%Q; 601%Q] = true.
Proof.
  apply (timed_out_antitone 120 600 [0.1%Q; 300%Q; 601%Q]); [lia | reflexivity].
Defined.

(** ** The reader thread, line by line *)

Section ReaderExtras.

Variable loads : string -> loaded.
Variable rid : string.

Lemma eq_str_inv v s : Py.eq_str v s = true -> v = PStr s.
Proof.
  destruct v as [| | | |t| |]; cbn; try done.
  by intros ->%String.eqb_eq.
Qed.

Lemma tool_use_blocks_keep_event blocks st :
  final_result_event (fold_left (tool_use_block rid) blocks st) = final_result_event st.
Proof.
  revert st. induction blocks as [|b bs IH]; intros st; [done|].
  cbn [fold_left]. rewrite IH. unfold tool_use_block. by repeat case_match.
Qed.

Lemma strip_blank line : nonempty (strip line) = false -> strip line = EmptyString.
Proof. by destruct (strip line). Qed.

(** What a line does to [final_result_event] when it is interpreted is
    what one turn of the re-scan does with it. *)
Lemma interpret_line_event st line st' :
  loads EmptyString = JSONDecodeError ->
  interpret_line loads rid st line = Ok st' ->
  final_result_event st' = rescan_line loads (final_result_event st) line.
Proof.
  intros Hempty. unfold interpret_line, rescan_line, bind.
  destruct (nonempty (strip line)) eqn:Hne; cbn [negb].
  2:{ intros [= <-]. by rewrite (strip_blank _ Hne), Hempty. }
  destruct (loads (strip line)) as [event| |e0]; [|by intros [= <-]|done].
  destruct event as [| | | | | |d]; try done. cbn [Py.get].
  destruct (Py.dict_get d "type") as [v|] eqn:Htype.
  - destruct (Py.eq_str v "assistant") eqn:Ha.
    + apply eq_str_inv in Ha as ->. cbn.
      intros Hok. repeat case_match; simplify_eq/=;
        by rewrite ?tool_use_blocks_keep_event.
    + destruct (Py.eq_str v "result"); by intros [= <-].
  - cbn. by intros [= <-].
Qed.

(** A line that ends the reader is not a result event for the re-scan. *)
Lemma interpret_line_raise st line e acc :
  interpret_line loads rid st line = Raise e ->
  rescan_line loads acc line = acc.
Proof.
  unfold interpret_line, rescan_line, bind.
  destruct (nonempty (strip line)); cbn [negb]; [|done].
  destruct (loads (strip line)) as [event| |e0]; [|done|done].
  destruct event as [| | | | | |d]; try done. cbn [Py.get].
  destruct (Py.dict_get d "type") as [v|] eqn:Htype; [|done].
  destruct (Py.eq_str v "assistant") eqn:Ha.
  - by apply eq_str_inv in Ha as ->.
  - by destruct (Py.eq_str v "result").
Qed.

(** The state of the reader after any lines: the logs hold a prefix of the
    lines, the same in both, and [final_result_event] is what the re-scan
    loop computes over that prefix. *)
Lemma read_stdout_prefix lines st :
  exists n,
    stdout_f (read_stdout loads true rid lines st).1 = (stdout_f st ++ take n lines)%list /\
    stream_f (read_stdout loads true rid lines st).1 = (stream_f st ++ take n lines)%list /\
    (loads EmptyString = JSONDecodeError ->
     final_result_event (read_stdout loads true rid lines st).1
       = fold_left (rescan_line loads) (take n lines) (final_result_event st)) /\
    ((read_stdout loads true rid lines st).2 = None -> take n lines = lines).
Proof.
  revert st. induction lines as [|line rest IH]; intros st.
  - exists 0%nat. cbn. by rewrite !app_nil_r.
  - cbn [read_stdout].
    destruct (interpret_line loads rid (log_line true st line) line) as [st'|e] eqn:E.
    + destruct (IH st') as (n & Hout & Hstream & Hev & Hall).
      destruct (interpret_line_logs loads rid _ _ _ E) as [Ho Hs].
      exists (S n). rewrite Hout, Hstream, Ho, Hs. cbn.
      rewrite <- !app_assoc. repeat split; try done.
      * intros Hempty. by rewrite (Hev Hempty), (interpret_line_event _ _ _ Hempty E).
      * intros Hnone. by rewrite (Hall Hnone).
    + exists 1%nat. cbn. rewrite take_0. repeat split; try done.
      intros _. by rewrite (interpret_line_raise _ _ _ _ E).
Qed.

(** X12: without streaming, nothing the child writes is interpreted: the
    loop copies every line it is given to the stdout log verbatim and in
    order, leaves the stream log and the console alone and captures no
    event, whatever the decoder would make of the lines.  So the reader
    ends only with the pipe: at its end, or on the decoding error of
    output that is not UTF-8, after which nothing more is logged. *)
Theorem plain_drain_only_copies (lines : list string) (w : World) :
  read_stdout loads false rid lines drain_start =
    ({| stdout_f := lines; stream_f := []; final_result_event := PNone;
        last_tool_name_printed := PNone; console := [] |}, None) /\
  reader loads false rid w =
    ({| stdout_f := (stdout_lines w ++
                     match stdout_fault w, pending_line w with
                     | None, Some line => [line]
                     | _, _ => []
                     end)%list;
        stream_f := []; final_result_event := PNone;
        last_tool_name_printed := PNone; console := [] |},
     stdout_fault w).
Proof.
  split; [by rewrite read_stdout_plain|].
  unfold reader. rewrite read_stdout_plain. cbn.
  destruct (stdout_fault w); [by rewrite app_nil_r|].
  destruct (pending_line w); cbn; by rewrite ?app_nil_r.
Qed.


(** An exception of [json.loads] other than [JSONDecodeError] is not
    caught: it ends the reader right after the line was logged. *)
Lemma loads_exception_ends_reader (line : string) (rest : list string) (st : Drain) e :
  nonempty (strip line) = true ->
  loads (strip line) = LoadsRaised e ->
  read_stdout loads true rid (line :: rest) st = (log_line true st line, Some e).
Proof.
  intros Hne Hraise. cbn [read_stdout]. unfold interpret_line.
  by rewrite Hne, Hraise.
Qed.

(** X14: a line that is blank, a line on which [json.loads] raises
    [JSONDecodeError], and a line that decodes to an object whose type is
    neither [assistant] nor [result] change nothing but the logs, and the
    reader goes on with the next line. *)
Theorem ignored_line (line : string) (rest : list string) (st : Drain) :
  nonempty (strip line) = false \/
  loads (strip line) = JSONDecodeError \/
  (exists d, loads (strip line) = Loaded (PDict d) /\
             Py.eq_str (field_or (PDict d) "type" (PStr EmptyString)) "assistant" = false /\
             Py.eq_str (field_or (PDict d) "type" (PStr EmptyString)) "result" = false) ->
  read_stdout loads true rid (line :: rest) st
    = read_stdout loads true rid rest (log_line true st line).
Proof.
  intros Hcase. cbn [read_stdout]. unfold interpret_line.
  destruct (nonempty (strip line)); cbn [negb]; [|done].
  destruct Hcase as [Hblank|[Hnone|(d & Hdec & Ha & Hr)]]; [done | by rewrite Hnone |].
  rewrite Hdec. unfold field_or, Py.eq_str in Ha, Hr. unfold bind, Py.get, Py.eq_str.
  destruct (Py.dict_get d "type") as [v|]; cbn [default from_option id] in Ha, Hr;
    by rewrite Ha, Hr.
Qed.

(** X15: an [assistant] event with no message, with a message without
    content, or whose content is a list holding no tool-use object, is
    read without any notification and without ending the reader. *)
Theorem assistant_event_without_tools (line : string) (st : Drain) (d : pydict) :
  nonempty (strip line) = true ->
  loads (strip line) = Loaded (PDict d) ->
  Py.dict_get d "type" = Some (PStr "assistant") ->
  Py.dict_get d "message" = None \/
  (exists m, Py.dict_get d "message" = Some (PDict m) /\
     (Py.dict_get m "content" = None \/
      exists blocks, Py.dict_get m "content" = Some (PList blocks) /\
        Forall (fun b => forall bd, b = PDict bd -> is_tool_use bd = false) blocks)) ->
  interpret_line loads rid st line = Ok st.
Proof.
  intros Hne Hdec Htype Hshape. unfold interpret_line.
  rewrite Hne, Hdec. cbn. rewrite Htype. cbn.
  destruct Hshape as [Hmsg|(m & Hmsg & [Hcontent|(blocks & Hcontent & Hblocks)])];
    rewrite Hmsg; cbn; [done | by rewrite Hcontent |].
  rewrite Hcontent. cbn. f_equal. clear Hcontent.
  induction Hblocks as [|b bs Hb _ IH]; [done|].
  cbn [fold_left].
  assert (tool_use_block rid st b = st) as ->; [|exact IH].
  unfold tool_use_block. destruct b as [| | | | | |bd]; try done.
  by rewrite (Hb bd eq_refl).
Qed.

(** X16: an [assistant] event whose message is not an object, or whose
    content is [None], a number or a boolean, ends the reader thread on an
    exception, like a line that is not an object. *)
Theorem assistant_event_of_bad_shape_ends_reader
    (line : string) (rest : list string) (st : Drain) (d : pydict) (v : pyobj) :
  nonempty (strip line) = true ->
  loads (strip line) = Loaded (PDict d) ->
  Py.dict_get d "type" = Some (PStr "assistant") ->
  (Py.dict_get d "message" = Some v /\ (forall m, v <> PDict m)) \/
  (exists m, Py.dict_get d "message" = Some (PDict m) /\ Py.dict_get m "content" = Some v /\
             (forall l, v <> PList l) /\ (forall s, v <> PStr s) /\ (forall c, v <> PDict c)) ->
  exists e, read_stdout loads true rid (line :: rest) st = (log_line true st line, Some e).
Proof.
  intros Hne Hdec Htype Hshape. cbn [read_stdout]. unfold interpret_line.
  rewrite Hne, Hdec. cbn. rewrite Htype. cbn.
  destruct Hshape as [[Hmsg Hv]|(m & Hmsg & Hcontent & Hl & Hs & Hd)]; rewrite Hmsg; cbn.
  - destruct v; try (by eexists). by destruct (Hv d0).
  - rewrite Hcontent. cbn.
    destruct v; try (by eexists); [by destruct (Hs s) | by destruct (Hl l) | by destruct (Hd d0)].
Qed.

End ReaderExtras.

Lemma ignored_line_witness :
  read_stdout ref_loads true "0123456789"
    [("all good" +:+ Sample.lf); Sample.ok_line] drain_start
  = read_stdout ref_loads true "0123456789" [Sample.ok_line]
      (log_line true drain_start ("all good" +:+ Sample.lf)).
Proof.
  apply (ignored_line ref_loads "0123456789" ("all good" +:+ Sample.lf)
           [Sample.ok_line] drain_start).
  right. left. reflexivity.
Defined.

Lemma assistant_event_without_tools_witness :
  interpret_line ref_loads "0123456789" drain_start
    (dq "{'type':'assistant','message':{'content':[{'type':'text'}, 7]}}" +:+ Sample.lf)
  = Ok drain_start.
Proof.
  apply (assistant_event_without_tools ref_loads "0123456789" _ drain_start
           [("type", PStr "assistant");
            ("message", PDict [("content", PList [PDict [("type", PStr "text")]; PInt 7])])]);
    [reflexivity | reflexivity | reflexivity |].
  right. eexists. split; [reflexivity|]. right. eexists. split; [reflexivity|].
  repeat constructor; intros bd [= <-]; reflexivity.
Defined.

Lemma assistant_event_of_bad_shape_ends_reader_witness :
  exists e,
    read_stdout ref_loads true "0123456789"
      [dq "{'type':'assistant','message':null}" +:+ Sample.lf; Sample.ok_line] drain_start
    = (log_line true drain_start (dq "{'type':'assistant','message':null}" +:+ Sample.lf),
       Some e).
Proof.
  apply (assistant_event_of_bad_shape_ends_reader ref_loads "0123456789" _ [Sample.ok_line]
           drain_start [("type", PStr "assistant"); ("message", PNone)] PNone);
    [reflexivity | reflexivity | reflexivity |].
  left. split; [reflexivity | discriminate].
Defined.

(** ** The stream log read back *)

Section StreamLog.

Variable loads : string -> loaded.
Variable rid : string.

Lemma file_lines_aux_line l cur rest :
  proper_line l = true ->
  file_lines_aux cur (l +:+ rest) = cur l :: file_lines_aux (fun t => t) rest.
Proof.
  revert cur. induction l as [|c r IH]; intros cur Hl; [done|].
  change (String c r +:+ rest) with (String c (r +:+ rest)).
  cbn [proper_line file_lines_aux] in Hl |- *.
  destruct (Ascii.eqb c "010"%char).
  - destruct r; [done | discriminate].
  - apply andb_prop in Hl as [_ Hr]. by rewrite (IH (fun t => cur (String c t)) Hr).
Qed.

(** Writing complete lines one after the other and reading the file back
    line by line gives the same lines. *)
Lemma file_lines_concat lines :
  Forall (fun l => proper_line l = true) lines ->
  file_lines (concat_str lines) = lines.
Proof.
  induction 1 as [|l ls Hl _ IH]; [done|].
  unfold file_lines in *. cbn [concat_str foldr].
  rewrite (file_lines_aux_line _ _ _ Hl). f_equal. exact IH.
Qed.

(** X17: when the reader stops, at the end of the output or on an
    exception, re-scanning the stream log it wrote finds exactly the result
    event it captured live, or none when it captured none: the fallback can
    only add something for a line logged but not yet interpreted. *)
Theorem rescan_agrees_with_live_capture (lines : list string) :
  loads EmptyString = JSONDecodeError ->
  Forall (fun l => proper_line l = true) lines ->
  rescan loads (concat_str (stream_f (read_stdout loads true rid lines drain_start).1))
    = final_result_event (read_stdout loads true rid lines drain_start).1.
Proof.
  intros Hempty Hlines.
  destruct (read_stdout_prefix loads rid lines drain_start)
    as (n & _ & Hstream & Hev & _).
  specialize (Hev Hempty).
  cbn in Hstream, Hev. rewrite Hstream, Hev. unfold rescan.
  rewrite file_lines_concat; [done|]. by apply Forall_take.
Qed.

(** X18: when the reader reaches the end of the output, the event it
    holds is the last line that decodes to a result event, whatever came
    before or after it; [None] when no line does. *)
Theorem live_capture_is_last_result_event (lines : list string) :
  loads EmptyString = JSONDecodeError ->
  (read_stdout loads true rid lines drain_start).2 = None ->
  final_result_event (read_stdout loads true rid lines drain_start).1
    = default PNone
        (last (omap (fun ln =>
                       match loads (strip ln) with
                       | Loaded ev => if is_result_event ev then Some ev else None
                       | _ => None
                       end) lines)).
Proof.
  intros Hempty Hend.
  destruct (read_stdout_prefix loads rid lines drain_start)
    as (n & _ & _ & Hev & Hall).
  rewrite (Hev Hempty), (Hall Hend). apply fold_rescan.
Qed.

End StreamLog.

Lemma rescan_agrees_with_live_capture_witness :
  rescan ref_loads
    (concat_str (stream_f (read_stdout ref_loads true "0123456789"
                             [Sample.ok_line; Sample.array_line; Sample.zero_line]
                             drain_start).1))
  = final_result_event (read_stdout ref_loads true "0123456789"
                          [Sample.ok_line; Sample.array_line; Sample.zero_line]
                          drain_start).1.
Proof.
  apply (rescan_agrees_with_live_capture ref_loads "0123456789"
           [Sample.ok_line; Sample.array_line; Sample.zero_line]);
    [reflexivity | repeat constructor].
Defined.

Lemma live_capture_is_last_result_event_witness :
  final_result_event (read_stdout ref_loads true "0123456789"
                        [Sample.ok_line; Sample.read_line; Sample.zero_line] drain_start).1
  = PDict [("type", PStr "result"); ("result", PInt 0)].
Proof.
  rewrite (live_capture_is_last_result_event ref_loads "0123456789"
             [Sample.ok_line; Sample.read_line; Sample.zero_line]);
    reflexivity.
Defined.

(** ** Whole runs *)

Section RunExtras.

Variable loads : string -> loaded.

Lemma tool_use_blocks_notes rid blocks st :
  Forall (fun e => reader_note e = true) (console st) ->
  Forall (fun e => reader_note e = true) (console (fold_left (tool_use_block rid) blocks st)).
Proof.
  revert st. induction blocks as [|b bs IH]; intros st Hst; [done|].
  cbn [fold_left]. apply IH. unfold tool_use_block.
  repeat case_match; try done.
  cbn. apply Forall_app. split; [done|]. by repeat constructor.
Qed.

Lemma interpret_line_notes rid st line st' :
  interpret_line loads rid st line = Ok st' ->
  Forall (fun e => reader_note e = true) (console st) ->
  Forall (fun e => reader_note e = true) (console st').
Proof.
  unfold interpret_line, bind. intros Hok Hst.
  repeat case_match; simplify_eq; try done.
  - by apply tool_use_blocks_notes.
  - cbn. apply Forall_app. split; [done|]. by repeat constructor.
Qed.

Lemma read_stdout_notes s rid lines st :
  Forall (fun e => reader_note e = true) (console st) ->
  Forall (fun e => reader_note e = true) (console (read_stdout loads s rid lines st).1).
Proof.
  revert st. induction lines as [|line rest IH]; intros st Hst; [done|].
  cbn [read_stdout]. destruct s.
  - destruct (interpret_line loads rid (log_line true st line) line) as [st'|e] eqn:E; [|done].
    apply IH. by eapply interpret_line_notes.
  - by apply IH.
Qed.

(** The reader prints tool names and completion notes only. *)
Lemma reader_notes s rid w :
  Forall (fun e => reader_note e = true) (console (reader loads s rid w).1).
Proof.
  unfold reader.
  pose proof (read_stdout_notes s rid (stdout_lines w) drain_start (Forall_nil_2 _)) as H.
  destruct (read_stdout loads s rid (stdout_lines w) drain_start) as [st [e|]]; [done|].
  destruct (stdout_fault w); [done|]. by destruct (pending_line w).
Qed.

(** With no line pending, the reader is where its loop left it. *)
Lemma reader_no_pending s rid w :
  pending_line w = None ->
  (reader loads s rid w).1 = (read_stdout loads s rid (stdout_lines w) drain_start).1.
Proof.
  intros Hp. unfold reader. rewrite Hp.
  destruct (read_stdout loads s rid (stdout_lines w) drain_start) as [st [e|]]; [done|].
  by destruct (stdout_fault w).
Qed.

Lemma attempt_notes a w :
  Forall (fun e => reader_note e = true) (att_notes (attempt loads a w)).
Proof.
  unfold attempt, try_body.
  destruct (popen w); [by constructor|]. destruct (open_logs w); [by constructor|].
  destruct (wait_loop _ _ _) as [[r evs] [e|]]; [apply reader_notes|].
  destruct (stderr_read w); apply reader_notes.
Qed.

(** The signalling of a run is that of the termination helper, called
    once, on the timeout path. *)
Lemma attempt_signals a w :
  att_signals (attempt loads a w) =
    match popen w, open_logs w with
    | None, None =>
        if timed_out (timeout a) (polls w)
        then (_kill_process_group (kill_oracle w) default_grace_seconds).1
        else []
    | _, _ => []
    end.
Proof.
  unfold attempt, try_body, wait_loop.
  destruct (popen w); [done|]. destruct (open_logs w); [done|].
  destruct (timed_out _ _).
  - destruct (_kill_process_group _ _) as [evs [e|]]; [done|]. by destruct (stderr_read w).
  - by destruct (stderr_read w).
Qed.

Lemma run_signals a w :
  signals (run_subagent loads a w) = [] \/
  signals (run_subagent loads a w) = att_signals (attempt loads a w).
Proof.
  unfold run_subagent, escaped. fold (attempt loads a w).
  repeat case_match; cbn; auto.
Qed.

Lemma safe_truncate_length o n text :
  _safe_truncate o n = Ok text -> (String.length text <= n + 3)%nat.
Proof.
  destruct o; cbn; repeat case_match; intros; simplify_eq; cbn; try lia.
  apply length_truncate.
Qed.

Lemma summary_bounded w rid r :
  Forall (fun e => (preview_length e <= 203)%nat) (summary w rid r).1.
Proof.
  unfold summary.
  destruct (success r); [|case_match; repeat constructor; cbn; lia].
  destruct (print_fault w (SuccessLine rid)); [constructor|].
  destruct (_safe_truncate (result r) 200) as [text|e] eqn:E;
    [|repeat constructor; cbn; lia].
  apply safe_truncate_length in E.
  case_match; repeat (constructor; [cbn [preview_length]; lia|]); constructor.
Qed.

Lemma logs_pointer_bounded w r :
  Forall (fun e => (preview_length e <= 203)%nat) (logs_pointer w r).1.
Proof.
  unfold logs_pointer. repeat case_match; repeat constructor; cbn; lia.
Qed.

Lemma summary_no_notes w rid r :
  Forall (fun e => reader_note e = false) (summary w rid r).1.
Proof. unfold summary. repeat case_match; by repeat constructor. Qed.

Lemma logs_pointer_no_notes w r :
  Forall (fun e => reader_note e = false) (logs_pointer w r).1.
Proof. unfold logs_pointer. repeat case_match; by repeat constructor. Qed.

Lemma take_result_artifacts ev r : artifacts (take_result ev r).1 = artifacts r.
Proof. rewrite take_result_spec. by destruct ev. Qed.

Lemma handle_exception_artifacts r f : artifacts (handle_exception r f) = artifacts r.
Proof. destruct f; cbn; try done. by destruct (is_file_not_found e). Qed.

Lemma reconcile_artifacts r code streaming final stream_text stdout_text err_text :
  artifacts (reconcile loads r code streaming final stream_text stdout_text err_text).1
    = artifacts r.
Proof.
  unfold reconcile. repeat case_match; rewrite ?take_result_artifacts; done.
Qed.

Lemma reconciled_artifacts a w :
  artifacts (reconciled loads a w) = artifacts (initial_result a w).
Proof.
  unfold reconciled. rewrite handle_exception_artifacts. unfold try_body, wait_loop.
  destruct (popen w); [done|]. destruct (open_logs w); [done|].
  destruct (timed_out _ _); [destruct (_kill_process_group _ _) as [evs [e|]]|];
    try done; destruct (stderr_read w);
    cbn [att_result]; rewrite ?reconcile_artifacts; done.
Qed.

(** X19: in a streaming run that exits with code zero before the
    deadline, whose standard error decodes and which gets to report, a
    result event captured live decides the outcome alone: the run succeeds
    with the payload of that event (the empty string when it is absent or
    false-valued) and its session id, whatever the stream log holds. *)
Theorem live_result_wins (a : Args) (w : World) :
  child_started a w ->
  stream_progress a = true ->
  timed_out (timeout a) (polls w) = false ->
  returncode w = 0 ->
  stderr_captured w ->
  reported loads a w ->
  Py.truthy (final_result_event (reader_of loads a w)) = true ->
  previewable (field_or (final_result_event (reader_of loads a w)) "result" (PStr EmptyString)) ->
  exists r,
    returned (run_subagent loads a w) = Ok r /\
    success r = true /\
    result r = Py.or_else (field_or (final_result_event (reader_of loads a w)) "result"
                             (PStr EmptyString)) (PStr EmptyString) /\
    session_id r = field_or (final_result_event (reader_of loads a w)) "session_id" PNone.
Proof.
  intros (Hset & Hp & Ho) Hs Ht Hcode [err_text Herr] Hrep Hlive Hprev.
  pose proof (reconciled_running loads a w Hp Ho Ht) as Hrec.
  rewrite Herr in Hrec. cbn zeta in Hrec.
  unfold reconcile in Hrec. cbn [error initial_result] in Hrec.
  rewrite Hcode, Hs in Hrec. cbn [Z.eqb] in Hrec. rewrite Hlive in Hrec.
  by eapply returned_from_object.
Qed.

(** X20: when the reader has interpreted every line it logged, the
    re-scan of the stream log recovers nothing: a streaming run that exits
    with code zero before the deadline without a live result event, whose
    standard error decodes and which gets to report, succeeds with the
    placeholder, also when the reader was ended by an exception. *)
Theorem rescan_adds_nothing_without_lag (a : Args) (w : World) :
  child_started a w ->
  stream_progress a = true ->
  timed_out (timeout a) (polls w) = false ->
  returncode w = 0 ->
  stderr_captured w ->
  reported loads a w ->
  loads EmptyString = JSONDecodeError ->
  pending_line w = None ->
  Forall (fun l => proper_line l = true) (stdout_lines w) ->
  Py.truthy (final_result_event (reader_of loads a w)) = false ->
  exists r,
    returned (run_subagent loads a w) = Ok r /\
    success r = true /\
    result r = PStr (no_result_placeholder (Some (stream_log_path (new_run_id w)))) /\
    session_id r = PNone.
Proof.
  intros (Hset & Hp & Ho) Hs Ht Hcode [err_text Herr] Hrep Hempty Hpending Hlines Hlive.
  pose proof (reconciled_running loads a w Hp Ho Ht) as Hrec.
  rewrite Herr in Hrec. cbn zeta in Hrec.
  unfold reconcile in Hrec. cbn [error initial_result artifacts stream_log] in Hrec.
  rewrite Hcode, Hs in Hrec. cbn [Z.eqb] in Hrec. rewrite Hlive in Hrec.
  assert (rescan loads (concat_str (stream_f (reader_of loads a w)))
          = final_result_event (reader_of loads a w)) as Hscan.
  { unfold reader_of. rewrite Hs, (reader_no_pending _ _ _ Hpending).
    destruct (read_stdout_prefix loads (new_run_id w) (stdout_lines w) drain_start)
      as (n & _ & Hstream & Hev & _).
    specialize (Hev Hempty).
    cbn [drain_start stream_f final_result_event app] in Hstream, Hev.
    rewrite Hstream, Hev. unfold rescan.
    rewrite file_lines_concat; [done|]. by apply Forall_take. }
  rewrite Hscan, Hlive in Hrec.
  rewrite (returned_after_set_up loads a w Hset Hrep), Hrec. cbn.
  eexists. by repeat split.
Qed.

(** X21: a dictionary returned with [success] false carries nothing but
    the error: it is the dictionary as initialised, with an empty result
    and no session id, plus an error text. *)
Theorem failed_run_carries_only_the_error (a : Args) (w : World) (r : Outcome) :
  returned (run_subagent loads a w) = Ok r ->
  success r = false ->
  result r = PStr EmptyString /\ session_id r = PNone /\
  exists msg, error r = Some msg /\ r = set_error msg (initial_result a w).
Proof.
  intros ->%returned_is_reconciled Hfail.
  destruct (reconciled_cases loads a w) as [Hs|[msg Hm]]; [congruence|].
  rewrite Hm. cbn. repeat split. by exists msg.
Qed.

(** X22: the artefacts of a returned dictionary are those fixed before
    the child is spawned, whatever happens afterwards: the run id is the
    first ten characters of the UUID, and a stream log is named exactly in
    streaming mode. *)
Theorem artifacts_fixed_before_spawn (a : Args) (w : World) (r : Outcome) :
  returned (run_subagent loads a w) = Ok r ->
  artifacts r = artifacts (initial_result a w) /\
  run_id (artifacts r) = take_str 10 (uuid4_hex w) /\
  (stream_progress a = true ->
   stream_log (artifacts r) = Some (stream_log_path (take_str 10 (uuid4_hex w)))) /\
  (stream_progress a = false -> stream_log (artifacts r) = None).
Proof.
  intros ->%returned_is_reconciled. rewrite reconciled_artifacts. cbn.
  repeat split; by intros ->.
Qed.

(** X23: in a non-streaming run that exits with code zero before the
    deadline, whose standard error decodes and which gets to report,
    standard output that decodes to JSON which is not an object (an array,
    a number, a string, [true], [false], [null]) gives a dictionary with
    [success] true, an empty result, and the text of the AttributeError as
    its error. *)
Theorem non_object_output_is_success_with_error (a : Args) (w : World) (output : pyobj) :
  child_started a w ->
  stream_progress a = false ->
  timed_out (timeout a) (polls w) = false ->
  returncode w = 0 ->
  stderr_captured w ->
  reported loads a w ->
  loads (captured_stdout w) = Loaded output ->
  (forall d, output <> PDict d) ->
  exists r,
    returned (run_subagent loads a w) = Ok r /\
    success r = true /\
    result r = PStr EmptyString /\
    error r = Some ("'" +:+ Py.type_name output +:+ "' object has no attribute 'get'").
Proof.
  intros (Hset & Hp & Ho) Hs Ht Hcode [err_text Herr] Hrep Hout Hshape.
  pose proof (reconciled_running loads a w Hp Ho Ht) as Hrec.
  rewrite Herr in Hrec. cbn zeta in Hrec.
  unfold reconcile in Hrec. cbn [error initial_result] in Hrec.
  rewrite Hcode, Hs in Hrec. cbn [Z.eqb] in Hrec.
  rewrite (plain_stdout_text loads a w Hs), Hout, take_result_spec in Hrec.
  rewrite (returned_after_set_up loads a w Hset Hrep), Hrec.
  destruct output as [| | | | | |d]; try (cbn; eexists; by repeat split).
  by destruct (Hshape d).
Qed.

(** X24: when the run got as far as its [try] statement, [Popen] raises
    and the run gets to report, the run returns the initial dictionary
    with the installation hint (for a missing program) or the text of the
    exception as its error; no signal is sent and the reader prints
    nothing. *)
Theorem spawn_failure_run (a : Args) (w : World) (e : pyexc) :
  set_up a w ->
  popen w = Some e ->
  reported loads a w ->
  returned (run_subagent loads a w)
    = Ok (set_error (if is_file_not_found e then cli_not_found else str_exc e)
            (initial_result a w)) /\
  signals (run_subagent loads a w) = [] /\
  Forall (fun ev => reader_note ev = false) (printed (run_subagent loads a w)).
Proof.
  intros Hset Hp Hrep. split; [|split].
  - rewrite (returned_after_set_up loads a w Hset Hrep),
      (spawn_failure_reported loads a w e Hp).
    done.
  - destruct (run_signals a w) as [->| ->]; [done|]. by rewrite attempt_signals, Hp.
  - destruct (run_after_set_up loads a w Hset) as (cwd & preview & ->). cbn zeta.
    assert (att_notes (attempt loads a w) = []) as ->.
    { unfold attempt, try_body. by rewrite Hp. }
    pose proof (summary_no_notes w (new_run_id w) (reconciled loads a w)) as Hsum.
    pose proof (logs_pointer_no_notes w (reconciled loads a w)) as Hlogs.
    destruct (summary w (new_run_id w) (reconciled loads a w)) as [lines out].
    destruct (logs_pointer w (reconciled loads a w)) as [logs out'].
    cbn [fst] in Hsum, Hlogs.
    repeat case_match; cbn [printed escaped app];
      repeat (constructor; [done|]); rewrite ?Forall_app; by repeat split.
Qed.

(** X25: a run that is timed out, whose termination helper returns and
    whose standard error decodes, leaves through the early [return]: it
    prints the header and what the reader printed, and no line of the
    summary, neither the error line nor the pointer to the logs. *)
Theorem timed_out_run_prints_no_summary (a : Args) (w : World) :
  child_started a w ->
  timed_out (timeout a) (polls w) = true ->
  termination_returns w ->
  stderr_captured w ->
  Forall (fun e => summary_line e = false) (printed (run_subagent loads a w)).
Proof.
  intros (Hset & Hp & Ho) Ht Hkill Herr.
  destruct (run_after_set_up loads a w Hset) as (cwd & preview & ->). cbn zeta.
  assert (att_flow (attempt loads a w) = Returned) as ->.
  { by apply early_return_iff. }
  assert (Forall (fun e => summary_line e = false) (att_notes (attempt loads a w)))
    as Hnotes.
  { eapply Forall_impl; [apply attempt_notes|]. by intros []. }
  case_match; cbn [printed escaped app]; by repeat constructor.
Qed.

(** X26: a run signals processes only on the timeout path: whenever it
    sent a signal, the child had started, the deadline had passed with the
    child alive, and the signals are those of one call of the termination
    helper. *)
Theorem signals_only_on_timeout (a : Args) (w : World) :
  signals (run_subagent loads a w) <> [] ->
  popen w = None /\ open_logs w = None /\
  timed_out (timeout a) (polls w) = true /\
  signals (run_subagent loads a w)
    = (_kill_process_group (kill_oracle w) default_grace_seconds).1.
Proof.
  destruct (run_signals a w) as [->| ->]; [done|]. rewrite attempt_signals.
  destruct (popen w); [done|]. destruct (open_logs w); [done|].
  by destruct (timed_out _ _).
Qed.

(** X27: whatever the task and the result, no preview printed by a run is
    longer than 203 characters: the task is cut at 120 characters and the
    result at 200, each with three dots added. *)
Theorem previews_are_bounded (a : Args) (w : World) :
  Forall (fun e => (preview_length e <= 203)%nat) (printed (run_subagent loads a w)).
Proof.
  assert (Forall (fun e => (preview_length e <= 203)%nat) (att_notes (attempt loads a w)))
    as Hnotes.
  { eapply Forall_impl; [apply attempt_notes|]. intros []; cbn; intros; try done; lia. }
  pose proof (summary_bounded w (new_run_id w) (reconciled loads a w)) as Hsum.
  pose proof (logs_pointer_bounded w (reconciled loads a w)) as Hlogs.
  assert (String.length (if negb (nonempty (task a)) then EmptyString
                         else truncate (task a) 120) <= 203)%nat as Hlen.
  { destruct (negb _); [cbn; lia|]. pose proof (length_truncate (task a) 120). lia. }
  unfold run_subagent, escaped. fold (attempt loads a w). cbn [_safe_truncate].
  remember (if negb (nonempty (task a)) then EmptyString else truncate (task a) 120)
    as preview eqn:Hpreview.
  clear Hpreview.
  destruct (summary w (new_run_id w) (reconciled loads a w)) as [lines out].
  destruct (logs_pointer w (reconciled loads a w)) as [logs out'].
  cbn [fst] in Hsum, Hlogs.
  repeat case_match; cbn [printed app];
    rewrite ?Forall_cons, ?Forall_app, ?Forall_nil; repeat split; try done;
    cbn [preview_length]; lia.
Qed.

(** When the console cannot print the verdict of a run that reached its
    summary, [main] ends on that exception without a result line. *)
Lemma main_without_verdict f w e :
  set_up (parse_args f) w ->
  (debug (parse_args f) = true -> debug_log_end w = None) ->
  att_flow (attempt loads (parse_args f) w) <> Returned ->
  print_fault w (if success (reconciled loads (parse_args f) w)
                 then SuccessLine (new_run_id w)
                 else ErrorLine (new_run_id w) (error (reconciled loads (parse_args f) w)))
    = Some e ->
  ended (main loads f w) = Uncaught e /\
  Forall (fun line => forall obj, line <> JsonLine obj) (main_printed (main loads f w)).
Proof.
  intros Hset Hend Hflow Hprint. unfold main.
  destruct (run_after_set_up loads _ w Hset) as (cwd & preview & ->). cbn zeta.
  assert ((if debug (parse_args f) then debug_log_end w else None) = None) as ->.
  { destruct (debug (parse_args f)); [by apply Hend | done]. }
  assert (summary w (new_run_id w) (reconciled loads (parse_args f) w) = ([], Raise e))
    as Hsum.
  { unfold summary. destruct (success _); by rewrite Hprint. }
  assert (Forall (fun line => forall obj, line <> JsonLine obj)
            (att_notes (attempt loads (parse_args f) w))) as Hnotes.
  { eapply Forall_impl; [apply attempt_notes|]. by intros [] Hnote json. }
  destruct (att_flow (attempt loads (parse_args f) w)); [|done|];
    rewrite Hsum; cbn; (split; [done|]);
    rewrite app_nil_r; by repeat constructor.
Qed.

End RunExtras.

(** ** The command line of the child *)

Section Command.

Variable str_of_float : Q -> string.

(** X28: with permissions skipped, which both entry points do by default,
    the allow-list has no effect on the command: the child is started with
    the same arguments whatever list is given. *)
Theorem allow_list_ignored_when_skipping (a : Args) (tools : option string) :
  skip_permissions a = true ->
  build_cmd str_of_float (with_allowed_tools tools a) = build_cmd str_of_float a /\
  "--dangerously-skip-permissions" ∈ build_cmd str_of_float a.
Proof.
  intros Hskip. unfold build_cmd, permission_args. cbn. rewrite Hskip. split; [done|].
  destruct (stream_progress a); cbn; set_solver.
Qed.

End Command.

Lemma live_result_wins_witness :
  exists r,
    returned (run_subagent ref_loads Sample.streaming Demo.w_live) = Ok r /\
    success r = true /\
    result r = PStr "ok" /\
    session_id r = PStr "s1".
Proof.
  destruct (live_result_wins ref_loads Sample.streaming Demo.w_live)
    as (r & Hr & Hs & Hres & Hsid);
    [quiet_host | reflexivity | reflexivity | reflexivity | by eexists | quiet_host
     | vm_compute; reflexivity | intros _; vm_compute; reflexivity |].
  exists r. split; [exact Hr|]. split; [exact Hs|]. split.
  - etrans; [exact Hres|]. vm_compute. reflexivity.
  - etrans; [exact Hsid|]. vm_compute. reflexivity.
Defined.

Lemma rescan_adds_nothing_without_lag_witness :
  exists r,
    returned (run_subagent ref_loads Sample.streaming Sample.w_no_result) = Ok r /\
    success r = true /\
    result r = PStr (no_result_placeholder
                       (Some (stream_log_path (new_run_id Sample.w_no_result)))) /\
    session_id r = PNone.
Proof.
  apply (rescan_adds_nothing_without_lag ref_loads Sample.streaming Sample.w_no_result);
    [quiet_host | reflexivity | reflexivity | reflexivity | by eexists | quiet_host
     | vm_compute; reflexivity | reflexivity
     | constructor; [vm_compute; reflexivity | constructor]
     | vm_compute; reflexivity].
Defined.

Lemma failed_run_carries_only_the_error_witness :
  exists r,
    returned (run_subagent ref_loads Sample.plain Sample.w_denied) = Ok r /\
    result r = PStr EmptyString /\ session_id r = PNone /\
    exists msg, error r = Some msg /\
                r = set_error msg (initial_result Sample.plain Sample.w_denied).
Proof.
  assert (exists r, returned (run_subagent ref_loads Sample.plain Sample.w_denied) = Ok r /\
                    success r = false) as (r & Hr & Hfail).
  { eexists. split; vm_compute; reflexivity. }
  exists r. split; [exact Hr|].
  exact (failed_run_carries_only_the_error ref_loads Sample.plain Sample.w_denied r Hr Hfail).
Defined.

Lemma artifacts_fixed_before_spawn_witness :
  exists r,
    returned (run_subagent ref_loads Sample.streaming Sample.w_slow) = Ok r /\
    run_id (artifacts r) = "0123456789" /\
    stream_log (artifacts r) = Some "/tmp/glm-native-subagent/run_0123456789.stream.jsonl".
Proof.
  assert (exists r, returned (run_subagent ref_loads Sample.streaming Sample.w_slow) = Ok r)
    as (r & Hr).
  { eexists. vm_compute. reflexivity. }
  destruct (artifacts_fixed_before_spawn ref_loads Sample.streaming Sample.w_slow r Hr)
    as (_ & Hid & Hlog & _).
  exists r. split; [exact Hr|]. split; [exact Hid|]. apply Hlog. reflexivity.
Defined.

Lemma non_object_output_is_success_with_error_witness :
  exists r,
    returned (run_subagent ref_loads Sample.plain Demo.w_array) = Ok r /\
    success r = true /\
    result r = PStr EmptyString /\
    error r = Some "'list' object has no attribute 'get'".
Proof.
  apply (non_object_output_is_success_with_error ref_loads Sample.plain Demo.w_array
           (PList [PInt 1]));
    [quiet_host | reflexivity | reflexivity | reflexivity | by eexists | quiet_host
     | vm_compute; reflexivity | intros d; discriminate].
Defined.

Lemma spawn_failure_run_witness :
  returned (run_subagent ref_loads Sample.plain Sample.w_no_cli)
    = Ok (set_error cli_not_found (initial_result Sample.plain Sample.w_no_cli)) /\
  signals (run_subagent ref_loads Sample.plain Sample.w_no_cli) = [] /\
  Forall (fun ev => reader_note ev = false)
    (printed (run_subagent ref_loads Sample.plain Sample.w_no_cli)).
Proof.
  apply (spawn_failure_run ref_loads Sample.plain Sample.w_no_cli Sample.missing_cli);
    [quiet_host | reflexivity | quiet_host].
Defined.

Lemma timed_out_run_prints_no_summary_witness :
  Forall (fun e => summary_line e = false)
    (printed (run_subagent ref_loads Sample.streaming Sample.w_slow)).
Proof.
  apply (timed_out_run_prints_no_summary ref_loads Sample.streaming Sample.w_slow);
    [quiet_host | reflexivity | reflexivity | by eexists].
Defined.

Lemma signals_only_on_timeout_witness :
  popen Sample.w_slow = None /\ open_logs Sample.w_slow = None /\
  timed_out (timeout Sample.streaming) (polls Sample.w_slow) = true /\
  signals (run_subagent ref_loads Sample.streaming Sample.w_slow)
    = (_kill_process_group (kill_oracle Sample.w_slow) default_grace_seconds).1.
Proof.
  apply (signals_only_on_timeout ref_loads Sample.streaming Sample.w_slow).
  vm_compute. discriminate.
Defined.

Lemma allow_list_ignored_when_skipping_witness :
  build_cmd (fun _ => "1.0") (with_allowed_tools None Demo.restricted)
    = build_cmd (fun _ => "1.0") Demo.restricted /\
  "--dangerously-skip-permissions" ∈ build_cmd (fun _ => "1.0") Demo.restricted.
Proof.
  apply (allow_list_ignored_when_skipping (fun _ => "1.0") Demo.restricted None).
  reflexivity.
Defined.

(** ** Runs on a host that fails *)

(** Standard output that is not UTF-8: the reader ends before its first
    line and the stdout log stays empty.  The non-streaming run then takes
    the empty text for undecodable JSON and succeeds with an empty result;
    the streaming run succeeds with the placeholder. *)
Lemma scenario_undecodable_stdout :
  reader ref_loads false "0123456789" Sample.w_garbled_stdout
    = (drain_start, Some Sample.not_utf8) /\
  (exists r,
     returned (run_subagent ref_loads Sample.plain Sample.w_garbled_stdout) = Ok r /\
     success r = true /\ result r = PStr EmptyString /\ error r = None) /\
  (exists r,
     returned (run_subagent ref_loads Sample.streaming Sample.w_garbled_stdout) = Ok r /\
     success r = true /\
     result r = PStr "(no result event; see /tmp/glm-native-subagent/run_0123456789.stream.jsonl)").
Proof.
  split; [reflexivity|].
  split; eexists; repeat split; vm_compute; reflexivity.
Qed.

(** An integer literal of 4301 digits: [json.loads] raises a plain
    [ValueError], which the streaming reader does not catch and the
    re-scan skips. *)
Lemma scenario_long_integer :
  ref_loads (Sample.nines 4300) <> LoadsRaised (RefJson.digits_error 4300) /\
  ref_loads (Sample.nines 4301) = LoadsRaised (RefJson.digits_error 4301) /\
  str_exc (RefJson.digits_error 4301)
    = "Exceeds the limit (4300 digits) for integer string conversion: value has 4301 digits; use sys.set_int_max_str_digits() to increase the limit" /\
  (read_stdout ref_loads true "0123456789" [Sample.nines 4301; Sample.ok_line] drain_start).2
    = Some (RefJson.digits_error 4301) /\
  rescan ref_loads (Sample.nines 4301 +:+ Sample.lf +:+ Sample.ok_line)
    = PDict [("type", PStr "result"); ("result", PStr "ok"); ("session_id", PStr "s1")].
Proof.
  split; [vm_compute; discriminate|].
  repeat split; vm_compute; reflexivity.
Qed.

(** The artefact directory cannot be made: [main] prints nothing and ends
    on the exception of [os.makedirs]. *)
Lemma scenario_no_artifact_directory :
  main ref_loads (Sample.flags false None) Sample.w_no_dir
    = {| main_printed := []; ended := Uncaught Sample.file_exists |}.
Proof. vm_compute. reflexivity. Qed.

(** A console that encodes ASCII only: the run is a success up to the
    first line of the summary, whose mark does not print; [main] ends on
    the encoding error after the header, without a result line. *)
Lemma scenario_ascii_console :
  success (reconciled ref_loads (parse_args (Sample.flags false None)) Sample.w_ascii_console)
    = true /\
  main_printed (main ref_loads (Sample.flags false None) Sample.w_ascii_console)
    = [Starting "0123456789" "/home/dev/project"; TaskPreview "list files"] /\
  exists e,
    ended (main ref_loads (Sample.flags false None) Sample.w_ascii_console) = Uncaught e /\
    exc_kind_of e = UnicodeEncodeError.
Proof.
  split; [vm_compute; reflexivity|]. split; [vm_compute; reflexivity|].
  eexists. split; vm_compute; reflexivity.
Qed.

(** The timeout strikes and standard error does not decode: the summary
    is printed, with the text of the decoding error. *)
Lemma scenario_timeout_then_undecodable_stderr :
  printed (run_subagent ref_loads Sample.streaming Sample.w_slow_garbled)
  = [Starting "0123456789" "/home/dev/project"; TaskPreview "list files";
     CompleteNote "0123456789";
     ErrorLine "0123456789"
       (Some "'utf-8' codec can't decode byte 0xff in position 0: invalid start byte");
     LogsLine "/tmp/glm-native-subagent/run_0123456789.stream.jsonl"].
Proof. vm_compute. reflexivity. Qed.
